(** * Entitlement, reconciliation and hand-off core of the photo studio app

    A shallow embedding of [app.py]: the credit ledger and the generation
    route ([transform]), the Stripe reconciliation routes ([post_checkout],
    [stripe_webhook], [ensure_stripe_customer]) and the QR upload hand-off
    ([mobile_start], [mobile_upload_post], [mobile_status]).

    Rows of the three tables are records, a table is the list of its rows in
    row order, a route is a function from the request and the database to a
    response, the database after the request and the list of effects the route
    performed on the outside world. *)

From Stdlib Require Import ZArith QArith Qabs Lia Lqa Bool List.
From Stdlib Require Import PrimFloat FloatOps SpecFloat Uint63.
From stdpp Require Import base option list strings gmap.

Local Open Scope Z_scope.

(** ** Python floats

    [transform] scales the picture with Python floats (IEEE 754 binary64,
    round to nearest, ties to even).  A float is modelled by the rational it
    denotes; every operation is the exact operation followed by [round53].
    The exponent range is not modelled: the sizes met here stay far from
    overflow and from the subnormal range. *)
Module PyFloat.

(** Nearest integer to [n / d] for [0 < d], ties to the even neighbour. *)
Definition rne_div (n d : Z) : Z :=
  let k := n / d in
  let r := n mod d in
  if 2 * r <? d then k
  else if d <? 2 * r then k + 1
  else if Z.even k then k else k + 1.

(** The exponent [e] of the unit in the last place of [p / q], for
    [0 < p] and [0 < q]: [2^52 <= (p / q) / 2^e < 2^53]. *)
Definition ulp_exp (p q : Z) : Z :=
  let e0 := Z.log2 p - Z.log2 q - 53 in
  if 2 ^ 53 * (q * 2 ^ Z.max 0 e0) <=? p * 2 ^ Z.max 0 (- e0)
  then e0 + 1 else e0.

(** [m * 2^e] as a rational. *)
Definition scale2 (m e : Z) : Q :=
  (m * 2 ^ Z.max 0 e) # Z.to_pos (2 ^ Z.max 0 (- e)).

(** Rounding of a positive rational [p / q] to a 53 bit significand. *)
Definition round53_pos (p q : Z) : Q :=
  let e := ulp_exp p q in
  scale2 (rne_div (p * 2 ^ Z.max 0 (- e)) (q * 2 ^ Z.max 0 e)) e.

Definition round53 (x : Q) : Q :=
  let p := Qnum x in
  let q := Z.pos (Qden x) in
  if p =? 0 then 0%Q
  else if 0 <? p then round53_pos p q
  else Qopp (round53_pos (- p) q).

(** [float(n)] *)
Definition of_int (n : Z) : Q := round53 (inject_Z n).

(** [x * y] and [x / y] on floats *)
Definition mul (x y : Q) : Q := round53 (Qmult x y).
Definition div (x y : Q) : Q := round53 (Qdiv x y).

(** [round(x)] with one argument: the nearest [int], ties to even. *)
Definition round (x : Q) : Z := rne_div (Qnum x) (Z.pos (Qden x)).

(** Half a unit in the last place of 1: the largest relative error of one
    rounding, [2^-53]. *)
Definition eps : Q := 1 # 9007199254740992.

(** The same operations on the kernel's binary64 numbers, to compare the
    model with the hardware on concrete inputs. *)
Definition hw_round (x : float) : Z :=
  match Prim2SF x with
  | S754_finite s m e =>
      let v := if 0 <=? e then rne_div (Z.pos m * 2 ^ e) 1
               else rne_div (Z.pos m) (2 ^ (- e)) in
      if s then - v else v
  | _ => 0
  end.

Definition hw_of_int (n : Z) : float := PrimFloat.of_uint63 (Uint63.of_Z n).

End PyFloat.

(** ** The resize step of [transform] (lines 559 to 563) *)

Definition TARGET : Q := inject_Z 1024.

Definition scale_factor (longest : Z) : Q :=
  if longest =? 0 then 1%Q else PyFloat.div TARGET (PyFloat.of_int longest).

Definition resize_dims (w h : Z) : Z * Z :=
  let longest := Z.max w h in
  let scale := scale_factor longest in
  let new_w := Z.max 1 (PyFloat.round (PyFloat.mul (PyFloat.of_int w) scale)) in
  let new_h := Z.max 1 (PyFloat.round (PyFloat.mul (PyFloat.of_int h) scale)) in
  (new_w, new_h).

(** The same step on the kernel's floats. *)
Definition hw_resize_dims (w h : Z) : Z * Z :=
  let longest := Z.max w h in
  let scale :=
    if longest =? 0 then 1%float
    else (1024 / PyFloat.hw_of_int longest)%float in
  let new_w := Z.max 1 (PyFloat.hw_round (PyFloat.hw_of_int w * scale)%float) in
  let new_h := Z.max 1 (PyFloat.hw_round (PyFloat.hw_of_int h * scale)%float) in
  (new_w, new_h).


(** Sizes on which the model is compared with the kernel's floats: every
    size up to 40 by 40, and some sizes of photographs and of extreme
    strips. *)
Definition sizes_upto (n : nat) : list (Z * Z) :=
  w ← seqZ 1 (Z.of_nat n); h ← seqZ 1 (Z.of_nat n); [(w, h)].

Definition sample_sizes : list (Z * Z) :=
  [(100, 50); (3, 2); (49, 7); (640, 480); (1024, 768); (1023, 1024); (1025, 1024);
   (1920, 1080); (4000, 3000); (6000, 4000); (2048, 1); (4096, 2); (12288, 18);
   (4096, 6); (30000, 7); (65535, 65534); (2147483647, 2147483646);
   (1099511627775, 1099511627774); (1, 1099511627775)].

Definition agree (wh : Z * Z) : bool :=
  bool_decide (resize_dims wh.1 wh.2 = hw_resize_dims wh.1 wh.2).

(** ** Tables

    [created_at], [password_hash] and [credits_reset_date] are written once
    or never by the routes below and read by none of them; they are left
    out.  A nullable column is an [option]. *)

Module User.
Record t := mk {
  id : Z;
  email : string;
  generation_count : option Z;
  is_subscribed : bool;
  stripe_customer_id : option string;
  plan_tier : option string;
  credits_remaining : Z;
  credits_limit : Z
}.
End User.

Module Generation.
Record t := mk {
  id : Z;
  user_id : Z;
  input_image_path : string;
  output_image_path : string
}.
End Generation.

Module MobileUploadToken.
Record t := mk {
  id : Z;
  token : string;
  used : bool;
  image_path : option string;
  user_id : option Z
}.
End MobileUploadToken.

Record DB := mkDB {
  users : list User.t;
  generations : list Generation.t;
  tokens : list MobileUploadToken.t
}.

#[global] Instance User_eq_dec : EqDecision User.t.
Proof. solve_decision. Defined.
#[global] Instance Generation_eq_dec : EqDecision Generation.t.
Proof. solve_decision. Defined.
#[global] Instance MobileUploadToken_eq_dec : EqDecision MobileUploadToken.t.
Proof. solve_decision. Defined.
#[global] Instance DB_eq_dec : EqDecision DB.
Proof. solve_decision. Defined.

(** *** Queries and row updates

    [first p rows] is [Model.query.filter(p).first()]; [update_first p f rows]
    is the commit after the attributes of that row object were assigned. *)
Definition first {A} (p : A -> bool) (rows : list A) : option A :=
  List.find p rows.

Fixpoint update_first {A} (p : A -> bool) (f : A -> A) (rows : list A) : list A :=
  match rows with
  | [] => []
  | r :: rest => if p r then f r :: rest else r :: update_first p f rest
  end.

(** The primary key of a new row: one more than the largest in the table. *)
Definition next_id (ids : list Z) : Z := 1 + foldr Z.max 0 ids.

(** Truth value of a nullable string, as in [if user.stripe_customer_id:]. *)
Definition truthy (s : option string) : bool :=
  match s with
  | Some v => negb (String.eqb v EmptyString)
  | None => false
  end.

Definition has_id (i : Z) (u : User.t) : bool := User.id u =? i.

Definition has_customer (c : string) (u : User.t) : bool :=
  match User.stripe_customer_id u with
  | Some v => String.eqb v c
  | None => false
  end.

Definition has_token (tok : string) (t : MobileUploadToken.t) : bool :=
  String.eqb (MobileUploadToken.token t) tok.

(** [load_user] behind [current_user]: the session holds a user id, a
    request is authenticated when the row exists. *)
Definition load_user (session : option Z) (db : DB) : option User.t :=
  i ← session; first (has_id i) (users db).

Definition set_users (us : list User.t) (db : DB) : DB :=
  mkDB us (generations db) (tokens db).

Definition set_tokens (ts : list MobileUploadToken.t) (db : DB) : DB :=
  mkDB (users db) (generations db) ts.

(** ** Configuration (lines 27 to 41) and the tier catalog (lines 69 to 87) *)

Record Config := mkConfig {
  stripe_api_key : option string;
  STRIPE_PRICE_ID_STARTER : string;
  STRIPE_PRICE_ID_CREATOR : string;
  STRIPE_PRICE_ID_ENTERPRISE : string;
  STRIPE_PRICE_ID_STARTER_ANNUAL : string;
  STRIPE_PRICE_ID_CREATOR_ANNUAL : string;
  STRIPE_PRICE_ID_ENTERPRISE_ANNUAL : string;
  STRIPE_CREATOR_COUPON : string
}.

(** The configuration when only the API key is set in the environment. *)
Definition default_config : Config :=
  mkConfig (Some "sk_test") "price_starter_monthly" "price_creator_monthly"
    "price_enterprise_monthly" "price_starter_annual" "price_creator_annual"
    "price_enterprise_annual" "FIRSTMONTH50".

Definition CREDITS_PER_IMAGE : Z := 500.

Definition PLAN_CREDITS : gmap string Z :=
  <["legacy_pro" := 200000]> (<["enterprise" := 800000]> (<["creator" := 300000]>
  (<["starter" := 120000]> (<["free" := 10000]> ∅)))).

(** A dict display inserts its items from left to right, a repeated key
    keeps the last value. *)
Definition PRICE_ID_TO_TIER (cfg : Config) : gmap string string :=
  <[STRIPE_PRICE_ID_ENTERPRISE_ANNUAL cfg := "enterprise"]>
  (<[STRIPE_PRICE_ID_CREATOR_ANNUAL cfg := "creator"]>
  (<[STRIPE_PRICE_ID_STARTER_ANNUAL cfg := "starter"]>
  (<[STRIPE_PRICE_ID_ENTERPRISE cfg := "enterprise"]>
  (<[STRIPE_PRICE_ID_CREATOR cfg := "creator"]>
  (<[STRIPE_PRICE_ID_STARTER cfg := "starter"]> ∅))))).

(** [PRICE_ID_TO_TIER.get(price_id, 'creator')]; [price_id] may be [None]. *)
Definition tier_of_price (cfg : Config) (price_id : option string) : string :=
  default "creator" (p ← price_id; PRICE_ID_TO_TIER cfg !! p).

(** ** Responses and effects *)

(** The exception caught at line 601, named by the statement that raised
    it; the page shows it as [error]. *)
Inductive Failure :=
| InvalidFilename        (* line 549 *)
| CannotOpenInput        (* [Image.open(input_path)], line 557 *)
| GenerationRaised       (* [generate_content] raised, line 567 *)
| MalformedResponse      (* [response.candidates[0].content.parts], line 574 *)
| NoImageGenerated       (* line 579 *)
| CannotOpenOutput.      (* [Image.open(BytesIO(...))], line 581 *)

Inductive Response :=
| Redirect (endpoint : string)            (* [redirect(url_for(endpoint))] *)
| RedirectUrl (url : string)              (* [redirect(session.url, code=303)] *)
| RenderIndex (error : option Failure) (input_image output_image : option string)
| RenderMobileUpload (success : bool)
| Json (success : bool) (status : Z)
| Plain (body : string) (status : Z)
| ServerError.                            (* an exception left the view *)

Inductive Effect :=
| Flash (message category : string)
| FlashError (error : Failure)            (* [flash(error, "error")] of line 603 *)
| SaveFile (path : string)
| GenerateContent (w h : Z)               (* [client.models.generate_content] *)
| CustomerCreate (email : string)         (* [stripe.Customer.create] *)
| SessionRetrieve (session_id : string)   (* [stripe.checkout.Session.retrieve] *)
| SessionCreate (customer : string)       (* checkout or portal session *)
| Print (message : string).

Record Outcome := mkOutcome {
  response : Response;
  db_after : DB;
  effects : list Effect
}.

#[global] Instance Failure_eq_dec : EqDecision Failure.
Proof. solve_decision. Defined.
#[global] Instance Response_eq_dec : EqDecision Response.
Proof. solve_decision. Defined.
#[global] Instance Effect_eq_dec : EqDecision Effect.
Proof. solve_decision. Defined.

(** ** What Stripe sends

    [li_price_id] is [item['price']['id']]; [None] stands for an item on
    which that lookup raises.  [cs_line_items] is
    [session['line_items']['data']], [None] when either key is absent. *)

Record LineItem := mkLineItem { li_price_id : option string }.

Record CheckoutSession := mkSession {
  cs_customer : option string;
  cs_line_items : option (list LineItem)
}.

(** The [data.object] of a verified event: [ev_id] is [data['id']], [None]
    when the key is absent (the lookup raises). *)
Record Event := mkEvent {
  ev_type : string;
  ev_id : option string;
  ev_customer : option string;
  ev_status : option string;
  ev_items : option (list LineItem)
}.

(** The price lookup shared by the three paths (lines 360 to 362, 415 to 417
    and 438 to 440): [Some price_id] or [None] when the subscript raises. *)
Definition first_price_id (items : option (list LineItem)) : option (option string) :=
  match items with
  | Some (item :: _) => p ← li_price_id item; Some (Some p)
  | _ => Some None
  end.

(** ** The entitlement writes

    [grant] is the block of four assignments of lines 369 to 372, 376 to 379,
    423 to 426 and 447 to 451; [PLAN_CREDITS[tier]] raises on an unknown
    tier. *)
Definition grant (subscribed : bool) (tier : string) (credits : Z) (u : User.t) : User.t :=
  User.mk (User.id u) (User.email u) (User.generation_count u) subscribed
    (User.stripe_customer_id u) (Some tier) credits credits.

Definition bind_customer (c : string) (u : User.t) : User.t :=
  User.mk (User.id u) (User.email u) (User.generation_count u) (User.is_subscribed u)
    (Some c) (User.plan_tier u) (User.credits_remaining u) (User.credits_limit u).

(** Lines 597 and 598. *)
Definition debit (u : User.t) : User.t :=
  User.mk (User.id u) (User.email u)
    (Some (default 0 (User.generation_count u) + 1))
    (User.is_subscribed u) (User.stripe_customer_id u) (User.plan_tier u)
    (Z.max 0 (User.credits_remaining u - CREDITS_PER_IMAGE)) (User.credits_limit u).

(** The credit check of line 530, read as the ledger's [authorize]. *)
Definition authorize (u : User.t) (cost : Z) : bool :=
  negb (User.credits_remaining u <? cost).

(** ** Requests *)

Record Upload := mkUpload {
  up_filename : string;
  up_content : string
}.

(** One part of a candidate of the model's answer: [part.inline_data.data],
    [None] when the part carries no inline data. *)
Record Part := mkPart { inline_data : option string }.

(** The answer of [generate_content]: [None] when the call raises (time-out,
    API error); a candidate is [None] when its [content] or [parts] is
    missing. *)
Definition GenAnswer := option (list (option (list Part))).

Record TransformRequest := mkTransform {
  tr_session : option Z;
  tr_file : option Upload;
  tr_timestamp : string;
  tr_answer : GenAnswer
}.

Record CheckoutRequest := mkCheckout {
  pc_session : option Z;
  pc_session_id : option string;
  pc_retrieve : option CheckoutSession    (* [None]: the retrieve raises *)
}.

(** [wh_event] is the result of [stripe.Webhook.construct_event]: [None] when
    the signature check raises. *)
Record WebhookRequest := mkWebhook {
  wh_event : option Event;
  wh_retrieve : option CheckoutSession
}.

Record UpgradeRequest := mkUpgrade {
  ug_session : option Z;
  ug_plan : string;
  ug_billing : string;
  ug_customer : option string;            (* [stripe.Customer.create(...).id] *)
  ug_url : option string                  (* [stripe.checkout.Session.create(...).url] *)
}.

Record MobileUploadRequest := mkMobileUpload {
  mu_token : string;
  mu_file : option Upload
}.

Definition UPLOAD_FOLDER : string := "static/uploads".
Definition OUTPUT_FOLDER : string := "static/outputs".

(** [os.path.join] of a folder and a relative name. *)
Definition path_join (folder name : string) : string :=
  folder +:+ "/" +:+ name.

Definition is_empty (s : string) : bool := String.eqb s EmptyString.

Definition file_given (f : option Upload) : option Upload :=
  match f with
  | Some u => if is_empty (up_filename u) then None else Some u
  | None => None
  end.

(** ** The routes

    The functions of werkzeug, [os.path] and PIL that the routes call are
    parameters: [secure_filename], the base name of [os.path.splitext], and
    [image_size], the size of the picture that [Image.open] decodes from a
    file's bytes after [exif_transpose] ([None] when it raises). *)
Section Routes.

Variable cfg : Config.
Variable secure_filename : string -> string.
Variable splitext_base : string -> string.
Variable image_size : string -> option (Z * Z).

(** *** [ensure_stripe_customer] (lines 160 to 166)

    [created] is the id of the customer Stripe creates, [None] when the call
    raises.  The result holds the returned id ([None]: the exception left the
    function). *)
Definition ensure_stripe_customer (created : option string) (u : User.t) (db : DB)
  : option string * DB * list Effect :=
  if truthy (User.stripe_customer_id u) then (User.stripe_customer_id u, db, [])
  else
    match created with
    | None => (None, db, [CustomerCreate (User.email u)])
    | Some c =>
        (Some c,
         set_users (update_first (has_id (User.id u)) (bind_customer c) (users db)) db,
         [CustomerCreate (User.email u)])
    end.

(** *** [upgrade] (lines 295 to 340) and [billing_portal] (lines 388 to 396) *)
Definition price_id_map (plan billing : string) : option string :=
  let monthly := String.eqb billing "monthly" in
  if String.eqb plan "starter" then
    Some (if monthly then STRIPE_PRICE_ID_STARTER cfg else STRIPE_PRICE_ID_STARTER_ANNUAL cfg)
  else if String.eqb plan "creator" then
    Some (if monthly then STRIPE_PRICE_ID_CREATOR cfg else STRIPE_PRICE_ID_CREATOR_ANNUAL cfg)
  else if String.eqb plan "enterprise" then
    Some (if monthly then STRIPE_PRICE_ID_ENTERPRISE cfg else STRIPE_PRICE_ID_ENTERPRISE_ANNUAL cfg)
  else None.

Definition start_session (req : UpgradeRequest) (u : User.t) (db : DB) : Outcome :=
  let '(customer, db1, eff) := ensure_stripe_customer (ug_customer req) u db in
  match customer with
  | None => mkOutcome ServerError db1 eff
  | Some c =>
      match ug_url req with
      | None => mkOutcome ServerError db1 (eff ++ [SessionCreate c])
      | Some url => mkOutcome (RedirectUrl url) db1 (eff ++ [SessionCreate c])
      end
  end.

Definition upgrade (req : UpgradeRequest) (db : DB) : Outcome :=
  match load_user (ug_session req) db with
  | None => mkOutcome (Redirect "signup") db []
  | Some u =>
      if User.is_subscribed u then mkOutcome (Redirect "index") db []
      else if truthy (price_id_map (ug_plan req) (ug_billing req))
              && truthy (stripe_api_key cfg)
      then start_session req u db
      else mkOutcome (Redirect "index") db
             [Flash "Billing is not configured. Please contact support." "error"]
  end.

Definition billing_portal (req : UpgradeRequest) (db : DB) : Outcome :=
  match load_user (ug_session req) db with
  | None => mkOutcome (Redirect "login") db []
  | Some u => start_session req u db
  end.

(** *** [post_checkout] (lines 342 to 386)

    The body of the [try]: [None] when an exception reaches line 384. *)
Definition post_checkout_try (req : CheckoutRequest) (db : DB) : option DB :=
  sess ← pc_retrieve req;
  c ← (if truthy (cs_customer sess) then cs_customer sess else None);
  price_id ← first_price_id (cs_line_items sess);
  let tier := tier_of_price cfg price_id in
  match first (has_customer c) (users db) with
  | Some _ =>
      credits ← PLAN_CREDITS !! tier;
      Some (set_users (update_first (has_customer c) (grant true tier credits) (users db)) db)
  | None =>
      match load_user (pc_session req) db with
      | Some cu =>
          credits ← PLAN_CREDITS !! tier;
          Some (set_users
                  (update_first (has_id (User.id cu))
                     (fun u => grant true tier credits (bind_customer c u)) (users db)) db)
      | None => Some db
      end
  end.

Definition post_checkout (req : CheckoutRequest) (db : DB) : Outcome :=
  if truthy (pc_session_id req) then
    let sid := default EmptyString (pc_session_id req) in
    match post_checkout_try req db with
    | Some db1 => mkOutcome (Redirect "index?upgraded=1") db1 [SessionRetrieve sid]
    | None =>
        mkOutcome (Redirect "index") db
          [SessionRetrieve sid;
           Flash "Thanks! Your payment succeeded. Access will unlock momentarily." "info"]
    end
  else mkOutcome (Redirect "index") db [Flash "Missing checkout session." "error"].

(** *** [stripe_webhook] (lines 398 to 459)

    The body of the [try] of the checkout branch: [None] when an exception
    reaches line 428. *)
Definition checkout_completed_try (ev : Event) (retrieved : option CheckoutSession)
    (c : string) (db : DB) : option DB :=
  _ ← ev_id ev;
  sess ← retrieved;
  price_id ← first_price_id (cs_line_items sess);
  let tier := tier_of_price cfg price_id in
  match first (has_customer c) (users db) with
  | Some _ =>
      credits ← PLAN_CREDITS !! tier;
      Some (set_users (update_first (has_customer c) (grant true tier credits) (users db)) db)
  | None => Some db
  end.

Definition checkout_completed (ev : Event) (retrieved : option CheckoutSession) (db : DB)
  : DB * list Effect :=
  if truthy (ev_customer ev) then
    let c := default EmptyString (ev_customer ev) in
    let calls := match ev_id ev with Some i => [SessionRetrieve i] | None => [] end in
    match checkout_completed_try ev retrieved c db with
    | Some db1 => (db1, calls)
    | None => (db, calls ++ [Print "Error processing checkout.session.completed"])
    end
  else (db, []).

Definition is_active (status : option string) : bool :=
  match status with
  | Some s => String.eqb s "active" || String.eqb s "trialing"
  | None => false
  end.

(** Lines 432 to 457; [None] when an exception leaves the view. *)
Definition subscription_changed (ev : Event) (db : DB) : option DB :=
  if truthy (ev_customer ev) then
    let c := default EmptyString (ev_customer ev) in
    price_id ← first_price_id (ev_items ev);
    let tier := tier_of_price cfg price_id in
    match first (has_customer c) (users db) with
    | Some _ =>
        let target := if is_active (ev_status ev) then tier else "free" in
        credits ← PLAN_CREDITS !! target;
        Some (set_users
                (update_first (has_customer c)
                   (grant (is_active (ev_status ev)) target credits) (users db)) db)
    | None => Some db
    end
  else Some db.

Definition stripe_webhook (req : WebhookRequest) (db : DB) : Outcome :=
  match wh_event req with
  | None => mkOutcome (Json false 400) db []
  | Some ev =>
      let '(db1, eff) :=
        if String.eqb (ev_type ev) "checkout.session.completed"
        then checkout_completed ev (wh_retrieve req) db
        else (db, []) in
      if String.eqb (ev_type ev) "customer.subscription.updated"
         || String.eqb (ev_type ev) "customer.subscription.deleted"
      then
        match subscription_changed ev db1 with
        | Some db2 => mkOutcome (Json true 200) db2 eff
        | None => mkOutcome ServerError db1 eff
        end
      else mkOutcome (Json true 200) db1 eff
  end.

(** *** [transform] (lines 524 to 623) *)

(** The list comprehension of lines 572 to 576. *)
Definition image_parts (parts : list Part) : list string :=
  omap inline_data parts.

(** [response.candidates[0].content.parts]; [None] when it raises. *)
Definition first_candidate_parts (candidates : list (option (list Part))) : option (list Part) :=
  match candidates with
  | c :: _ => c
  | [] => None
  end.

(** Lines 605 to 623: before the page is rendered, line 608 converts the
    count of the signed-in account with [int], which raises when the count
    is NULL; the exception leaves the view. *)
Definition rendered (count : option Z) (page : Response) : Response :=
  match count with
  | Some _ => page
  | None => ServerError
  end.

(** Lines 601 to 623 after an exception in the [try] of account [u]: the
    error is flashed, nothing is committed, and the page is rendered with
    the error. *)
Definition failed (u : User.t) (e : Failure) (input_image : option string)
    (eff : list Effect) (db : DB) : Outcome :=
  mkOutcome (rendered (User.generation_count u) (RenderIndex (Some e) input_image None))
    db (eff ++ [FlashError e]).

(** Lines 589 to 599: the record is added, the balance debited, then both are
    committed. *)
Definition record_and_debit (u : User.t) (input_image output_image : string) (db : DB) : DB :=
  let g := Generation.mk (next_id (Generation.id <$> generations db)) (User.id u)
             input_image output_image in
  mkDB (update_first (has_id (User.id u)) debit (users db))
       (generations db ++ [g]) (tokens db).

(** The [try] of lines 546 to 603, for a user [u] who passed the credit check
    and sent the file [f]. *)
Definition transform_try (req : TransformRequest) (u : User.t) (f : Upload) (db : DB)
  : Outcome :=
  let safe := secure_filename (up_filename f) in
  if is_empty safe then failed u InvalidFilename None [] db
  else
    let filename := tr_timestamp req +:+ "_" +:+ safe in
    let input_path := path_join UPLOAD_FOLDER filename in
    let input_image := "/" +:+ input_path in
    let saved := [SaveFile input_path] in
    match image_size (up_content f) with
    | None => failed u CannotOpenInput (Some input_image) saved db
    | Some (w, h) =>
        let '(new_w, new_h) := resize_dims w h in
        let called := saved ++ [GenerateContent new_w new_h] in
        match tr_answer req with
        | None => failed u GenerationRaised (Some input_image) called db
        | Some candidates =>
            match first_candidate_parts candidates with
            | None => failed u MalformedResponse (Some input_image) called db
            | Some parts =>
                match image_parts parts with
                | [] => failed u NoImageGenerated (Some input_image) called db
                | data :: _ =>
                    match image_size data with
                    | None => failed u CannotOpenOutput (Some input_image) called db
                    | Some _ =>
                        let base := secure_filename (splitext_base filename) in
                        let safe_base := if is_empty base then "output" else base in
                        let output_path :=
                          path_join OUTPUT_FOLDER ("genai_white_" +:+ safe_base +:+ ".png") in
                        let output_image := "/" +:+ output_path in
                        mkOutcome
                          (rendered (User.generation_count (debit u))
                             (RenderIndex None (Some input_image) (Some output_image)))
                          (record_and_debit u input_image output_image db)
                          (called ++ [SaveFile output_path])
                    end
                end
            end
        end
    end.

Definition transform (req : TransformRequest) (db : DB) : Outcome :=
  match load_user (tr_session req) db with
  | None => mkOutcome (Redirect "signup") db []
  | Some u =>
      if User.credits_remaining u <? CREDITS_PER_IMAGE then
        mkOutcome (Redirect "upgrade") db
          [Flash (if User.is_subscribed u
                  then "You've used all your monthly credits. They'll reset at the start of next month."
                  else "You've used all your free credits. Upgrade to continue.") "info"]
      else
        match file_given (tr_file req) with
        | None =>
            mkOutcome (Redirect "index") db [Flash "Please choose an image to upload." "error"]
        | Some f => transform_try req u f db
        end
  end.

(** *** The QR hand-off (lines 628 to 686) *)

(** [mobile_start]: [fresh] is [uuid.uuid4().hex]; the [token] column is
    unique, the commit of a token already in the table raises. *)
Definition mobile_start (session : option Z) (fresh : string) (db : DB) : Outcome :=
  let t := MobileUploadToken.mk (next_id (MobileUploadToken.id <$> tokens db)) fresh false None
             (User.id <$> load_user session db) in
  match first (has_token fresh) (tokens db) with
  | Some _ => mkOutcome ServerError db []
  | None => mkOutcome (Json true 200) (set_tokens (tokens db ++ [t]) db) []
  end.

Definition expired : Response := Plain "Link expired or already used." 410.

Definition deposit (path : string) (t : MobileUploadToken.t) : MobileUploadToken.t :=
  MobileUploadToken.mk (MobileUploadToken.id t) (MobileUploadToken.token t) true
    (Some ("/" +:+ path)) (MobileUploadToken.user_id t).

Definition mobile_upload_post (req : MobileUploadRequest) (db : DB) : Outcome :=
  let tok := mu_token req in
  match first (has_token tok) (tokens db) with
  | None => mkOutcome expired db []
  | Some t =>
      if MobileUploadToken.used t then mkOutcome expired db []
      else
        match file_given (mu_file req) with
        | None => mkOutcome (RenderMobileUpload false) db [Flash "Please choose a photo." "error"]
        | Some f =>
            let safe := secure_filename (up_filename f) in
            let filename := if is_empty safe then tok +:+ ".jpg" else safe in
            let path := path_join UPLOAD_FOLDER ("mobile_" +:+ tok +:+ "_" +:+ filename) in
            mkOutcome (RenderMobileUpload true)
              (set_tokens (update_first (has_token tok) (deposit path) (tokens db)) db)
              [SaveFile path]
        end
  end.

(** [mobile_status]: what the first device polls. *)
Inductive Status :=
| NotFound
| Pending
| Ready (image_url : string).

Definition mobile_status (tok : string) (db : DB) : Status :=
  match first (has_token tok) (tokens db) with
  | None => NotFound
  | Some t =>
      match MobileUploadToken.image_path t with
      | Some p => if MobileUploadToken.used t && negb (is_empty p) then Ready p else Pending
      | None => Pending
      end
  end.

(** *** [signup] (lines 237 to 252), for an email already normalised and a
    non-empty password *)
Definition has_email (e : string) (u : User.t) : bool := String.eqb (User.email u) e.

Definition signup (email : string) (db : DB) : Outcome :=
  match first (has_email email) (users db) with
  | Some _ =>
      mkOutcome (Redirect "login") db [Flash "Email already registered. Please log in." "error"]
  | None =>
      match PLAN_CREDITS !! "free" with
      | None => mkOutcome ServerError db []
      | Some credits =>
          let u := User.mk (next_id (User.id <$> users db)) email (Some 0) false None
                     (Some "free") credits credits in
          mkOutcome (Redirect "index") (set_users (users db ++ [u]) db) []
      end
  end.

(** ** Sequences of requests *)

Inductive Request :=
| Signup (email : string)
| Upgrade (req : UpgradeRequest)
| BillingPortal (req : UpgradeRequest)
| PostCheckout (req : CheckoutRequest)
| StripeWebhook (req : WebhookRequest)
| Transform (req : TransformRequest)
| MobileStart (session : option Z) (fresh : string)
| MobileUploadPost (req : MobileUploadRequest).

Definition handle (r : Request) (db : DB) : Outcome :=
  match r with
  | Signup email => signup email db
  | Upgrade req => upgrade req db
  | BillingPortal req => billing_portal req db
  | PostCheckout req => post_checkout req db
  | StripeWebhook req => stripe_webhook req db
  | Transform req => transform req db
  | MobileStart session fresh => mobile_start session fresh db
  | MobileUploadPost req => mobile_upload_post req db
  end.

(** The database after the requests were served one after the other. *)
Definition run (rs : list Request) (db : DB) : DB :=
  foldl (fun d r => db_after (handle r d)) db rs.

End Routes.

(** ** Predicates used in the statements *)

(** The ledger invariant: no account has a negative balance. *)
Definition credits_nonneg (db : DB) : Prop :=
  Forall (fun u => 0 <= User.credits_remaining u) (users db).

(** The bytes of the first picture in the collaborator's answer, if the
    answer is well formed and holds one. *)
Definition first_image (a : GenAnswer) : option string :=
  candidates ← a; parts ← first_candidate_parts candidates; head (image_parts parts).

(** The answer is usable when that picture exists and decodes. *)
Definition usable_answer (image_size : string -> option (Z * Z)) (a : GenAnswer) : bool :=
  bool_decide (is_Some (d ← first_image a; image_size d)).

(** A request of user [uid] on which nothing but the balance can stop the
    generation: a named file that decodes, and a usable answer. *)
Definition can_succeed (secure_filename : string -> string)
    (image_size : string -> option (Z * Z)) (uid : Z) (req : TransformRequest) : bool :=
  bool_decide (tr_session req = Some uid)
  && match file_given (tr_file req) with
     | Some f => negb (is_empty (secure_filename (up_filename f)))
                 && bool_decide (is_Some (image_size (up_content f)))
     | None => false
     end
  && usable_answer image_size (tr_answer req).

(** ** Sample data *)
Module Sample.

Definition secure_filename (s : string) : string := s.
Definition splitext_base (s : string) : string := s.
Definition image_size (bytes : string) : option (Z * Z) :=
  if is_empty bytes then None else Some (800, 600).

Definition empty_db : DB := mkDB [] [] [].

(** The database after one sign-up: user 1 on the free tier. *)
Definition fresh_db : DB := db_after (signup "ann@example.com" empty_db).

Definition photo : Upload := mkUpload "room.jpg" "JPEG".

Definition good_request : TransformRequest :=
  mkTransform (Some 1) (Some photo) "20250101_120000"
    (Some [Some [mkPart None; mkPart (Some "PNG")]]).

(** The collaborator answers with text only. *)
Definition empty_answer_request : TransformRequest :=
  mkTransform (Some 1) (Some photo) "20250101_120000" (Some [Some [mkPart None]]).

(** An account already bound to customer [cus_A], and the confirmation of a
    checkout session that Stripe holds for another customer, [cus_B], bound
    to no account. *)
Definition bound_db : DB :=
  mkDB [User.mk 1 "ann@example.com" (Some 0) false (Some "cus_A") (Some "free") 10000 10000]
       [] [].

Definition foreign_checkout : CheckoutRequest :=
  mkCheckout (Some 1) (Some "cs_test_1")
    (Some (mkSession (Some "cus_B") (Some [mkLineItem (Some "price_starter_monthly")]))).

(** A verified checkout event whose session Stripe fails to return. *)
Definition failing_webhook : WebhookRequest :=
  mkWebhook (Some (mkEvent "checkout.session.completed" (Some "cs_test_1") (Some "cus_A")
                     None None))
            None.

Definition twenty_requests : list TransformRequest := replicate 20 good_request.

(** The database after [mobile_start] issued the token [tok_1]. *)
Definition token_db : DB := db_after (mobile_start None "tok_1" empty_db).

Definition photo_deposit : MobileUploadRequest := mkMobileUpload "tok_1" (Some photo).
Definition empty_deposit : MobileUploadRequest := mkMobileUpload "tok_1" None.

End Sample.

(** ** The remaining routes and the start-up code *)

(** *** [view_generation] (lines 496 to 519) *)
Definition owned (generation_id uid : Z) (g : Generation.t) : bool :=
  (Generation.id g =? generation_id) && (Generation.user_id g =? uid).

Definition view_generation (session : option Z) (generation_id : Z) (db : DB) : Outcome :=
  match load_user session db with
  | None => mkOutcome (Redirect "login") db []
  | Some u =>
      match first (owned generation_id (User.id u)) (generations db) with
      | None => mkOutcome (Redirect "index") db [Flash "Generation not found." "error"]
      | Some g =>
          mkOutcome (RenderIndex None (Some (Generation.input_image_path g))
                       (Some (Generation.output_image_path g))) db []
      end
  end.

(** *** [mobile_upload_get] (lines 653 to 658) *)
Definition mobile_upload_get (tok : string) (db : DB) : Response :=
  match first (has_token tok) (tokens db) with
  | None => expired
  | Some t => if MobileUploadToken.used t then expired else RenderMobileUpload false
  end.

(** *** The free-use counter of [index] and [transform] (lines 469 to 475 and
    605 to 609)

    What the page is rendered with.  [int(getattr(current_user,
    "generation_count", 0))] raises on an account whose count is NULL: the
    result is [None] then. *)
Record PageContext := mkPage {
  is_authed : bool;
  is_subscribed : bool;
  free_uses_left : option Z
}.

Definition free_cap : Z := 1.

Definition page_context (current_user : option User.t) : option PageContext :=
  match current_user with
  | None => Some (mkPage false false None)
  | Some u =>
      used ← User.generation_count u;
      Some (mkPage true (User.is_subscribed u)
              (if negb (User.is_subscribed u) then Some (Z.max 0 (free_cap - used)) else None))
  end.

(** [index] (lines 464 to 491): the page, and the message flashed when the
    request carries [upgraded=1]. *)
Definition index (session : option Z) (upgraded : bool) (db : DB)
  : option PageContext * list Effect :=
  (page_context (load_user session db),
   if upgraded
   then [Flash "Thanks for upgrading! Your subscription is now active." "success"]
   else []).

(** *** The SQLite auto-migration (lines 169 to 198)

    [table_info] is the answer of [PRAGMA table_info(user)], one row per
    column, in column order; [ALTER TABLE user ADD COLUMN] adds a row at its
    end. *)
Record Column := mkColumn {
  col_name : string;
  col_decl : string
}.

Definition _column_exists (table_info : list Column) (column : string) : bool :=
  existsb (fun row => String.eqb (col_name row) column) table_info.

Definition paywall_columns : list Column :=
  [mkColumn "is_subscribed" "BOOLEAN NOT NULL DEFAULT 0";
   mkColumn "stripe_customer_id" "VARCHAR(120)";
   mkColumn "plan_tier" "VARCHAR(20) DEFAULT 'free'";
   mkColumn "credits_remaining" "INTEGER DEFAULT 10000";
   mkColumn "credits_limit" "INTEGER DEFAULT 10000";
   mkColumn "credits_reset_date" "DATETIME"].

(** One [if not _column_exists(...)] block: the table and the [added] flag. *)
Definition add_if_missing (st : list Column * bool) (c : Column) : list Column * bool :=
  if _column_exists st.1 (col_name c) then st else (st.1 ++ [c], true).

(** The table after the six blocks, and whether line 198 commits. *)
Definition ensure_paywall_columns (table_info : list Column) : list Column * bool :=
  foldl add_if_missing (table_info, false) paywall_columns.

(** *** The start-up pass over legacy subscribers (lines 693 to 701) *)
Definition no_tier (u : User.t) : bool :=
  match User.plan_tier u with
  | None => true
  | Some t => is_empty t
  end.

Definition set_plan_tier (tier : string) (u : User.t) : User.t :=
  User.mk (User.id u) (User.email u) (User.generation_count u) (User.is_subscribed u)
    (User.stripe_customer_id u) (Some tier) (User.credits_remaining u) (User.credits_limit u).

Definition grandfather (u : User.t) : User.t :=
  if User.is_subscribed u && no_tier u && (User.credits_limit u =? 200000)
  then set_plan_tier "legacy_pro" u else u.

Definition grandfather_legacy_users (db : DB) : DB :=
  set_users (grandfather <$> users db) db.

(** ** Predicates used in the further statements *)

(** The balance of every account lies between zero and its cap. *)
Definition within_cap (u : User.t) : Prop :=
  0 <= User.credits_remaining u <= User.credits_limit u.

(** Ids and emails of the accounts, and ids and values of the tokens, are
    unique, as the primary keys and the [unique] columns require. *)
Definition keys_unique (db : DB) : Prop :=
  NoDup (User.id <$> users db) /\ NoDup (User.email <$> users db)
  /\ NoDup (Generation.id <$> generations db)
  /\ NoDup (MobileUploadToken.id <$> tokens db)
  /\ NoDup (MobileUploadToken.token <$> tokens db).

(** The six price ids of the configuration. *)
Definition price_ids (cfg : Config) : list string :=
  [STRIPE_PRICE_ID_STARTER cfg; STRIPE_PRICE_ID_CREATOR cfg; STRIPE_PRICE_ID_ENTERPRISE cfg;
   STRIPE_PRICE_ID_STARTER_ANNUAL cfg; STRIPE_PRICE_ID_CREATOR_ANNUAL cfg;
   STRIPE_PRICE_ID_ENTERPRISE_ANNUAL cfg].

Definition paid_plan (plan : string) : Prop :=
  plan = "starter" \/ plan = "creator" \/ plan = "enterprise".

(** The two kinds of event of the second block of the webhook. *)
Definition subscription_event (ev : Event) : Prop :=
  ev_type ev = "customer.subscription.updated" \/ ev_type ev = "customer.subscription.deleted".

(** The entitlement columns of an account. *)
Definition entitlement (u : User.t) : bool * option string * Z * Z :=
  (User.is_subscribed u, User.plan_tier u, User.credits_remaining u, User.credits_limit u).

(** ** What one request can do to the database

    The writes the routes make to an account row, and the ways the database
    after a request differs from the database before it. *)
Inductive row_write : (User.t -> User.t) -> Prop :=
| write_bind c : row_write (bind_customer c)
| write_grant b tier credits :
    PLAN_CREDITS !! tier = Some credits -> row_write (grant b tier credits)
| write_bind_grant c tier credits :
    PLAN_CREDITS !! tier = Some credits ->
    row_write (fun u => grant true tier credits (bind_customer c u)).

Definition new_user (db : DB) (email : string) (credits : Z) : User.t :=
  User.mk (next_id (User.id <$> users db)) email (Some 0) false None (Some "free")
    credits credits.

Definition new_token (db : DB) (fresh : string) (owner : option Z) : MobileUploadToken.t :=
  MobileUploadToken.mk (next_id (MobileUploadToken.id <$> tokens db)) fresh false None owner.

Inductive db_step (db : DB) : DB -> Prop :=
| step_none : db_step db db
| step_account p f :
    row_write f -> db_step db (set_users (update_first p f (users db)) db)
| step_signup email credits :
    first (has_email email) (users db) = None ->
    PLAN_CREDITS !! "free" = Some credits ->
    db_step db (set_users (users db ++ [new_user db email credits]) db)
| step_generation u i o :
    first (has_id (User.id u)) (users db) = Some u ->
    CREDITS_PER_IMAGE <= User.credits_remaining u ->
    db_step db (record_and_debit u i o db)
| step_token fresh owner :
    first (has_token fresh) (tokens db) = None ->
    db_step db (set_tokens (tokens db ++ [new_token db fresh owner]) db)
| step_deposit tok path t :
    first (has_token tok) (tokens db) = Some t ->
    MobileUploadToken.used t = false ->
    db_step db (set_tokens (update_first (has_token tok) (deposit path) (tokens db)) db).

(** A sample table of a database created before the paywall: the columns
    of the first version of the [user] model. *)
Definition old_user_table : list Column :=
  [mkColumn "id" "INTEGER NOT NULL"; mkColumn "email" "VARCHAR(120) NOT NULL";
   mkColumn "password_hash" "VARCHAR(200) NOT NULL"; mkColumn "created_at" "DATETIME";
   mkColumn "generation_count" "INTEGER"; mkColumn "is_subscribed" "BOOLEAN NOT NULL DEFAULT 0"].

(** ** Sample data for the further statements *)
Module Fixture.

(** The account of [Sample.fresh_db] and of [Sample.bound_db]. *)
Definition ann : User.t :=
  User.mk 1 "ann@example.com" (Some 0) false None (Some "free") 10000 10000.

Definition ann_bound : User.t :=
  User.mk 1 "ann@example.com" (Some 0) false (Some "cus_A") (Some "free") 10000 10000.

(** Stripe's session for customer [cus_A], on the monthly starter price. *)
Definition session_A : CheckoutSession :=
  mkSession (Some "cus_A") (Some [mkLineItem (Some "price_starter_monthly")]).

Definition confirmation_A : CheckoutRequest :=
  mkCheckout (Some 1) (Some "cs_test_1") (Some session_A).

Definition completed_A : Event :=
  mkEvent "checkout.session.completed" (Some "cs_test_1") (Some "cus_A") None None.

Definition webhook_A : WebhookRequest := mkWebhook (Some completed_A) (Some session_A).

(** The subscription of [cus_A] is cancelled. *)
Definition cancelled_A : Event :=
  mkEvent "customer.subscription.deleted" None (Some "cus_A") (Some "canceled")
    (Some [mkLineItem (Some "price_creator_monthly")]).

Definition cancel_webhook : WebhookRequest := mkWebhook (Some cancelled_A) None.

Definition requests : list Request :=
  [Signup "bob@example.com"; Transform Sample.good_request;
   MobileStart (Some 1) "tok_1"; MobileUploadPost Sample.photo_deposit;
   StripeWebhook cancel_webhook].

End Fixture.

(** * Properties *)

(** ** Python floats: rounding error *)
Section Floats.
Import PyFloat.

Lemma rne_div_near n d : 0 < d -> 2 * Z.abs (rne_div n d * d - n) <= d.
Proof.
  intros Hd. unfold rne_div.
  pose proof (Z.div_mod n d ltac:(lia)) as Hdm.
  pose proof (Z.mod_pos_bound n d Hd) as Hr.
  destruct (Z.ltb_spec (2 * (n mod d)) d); [nia|].
  destruct (Z.ltb_spec d (2 * (n mod d))); [nia|].
  destruct (Z.even (n / d)); nia.
Qed.

Lemma rne_div_exact k d : 0 < d -> rne_div (k * d) d = k.
Proof.
  intros Hd. unfold rne_div.
  rewrite Z.div_mul, Z.mod_mul by lia.
  destruct (Z.ltb_spec (2 * 0) d); [done|lia].
Qed.

(** The exponent chosen by [ulp_exp] leaves at least 53 bits in front of the
    binary point. *)
Lemma ulp_exp_lower p q :
  0 < p -> 0 < q ->
  let e := ulp_exp p q in
  2 ^ 52 * (q * 2 ^ Z.max 0 e) <= p * 2 ^ Z.max 0 (- e).
Proof.
  intros Hp Hq. unfold ulp_exp.
  set (e0 := Z.log2 p - Z.log2 q - 53).
  pose proof (Z.log2_spec p Hp) as [Hp1 Hp2].
  pose proof (Z.log2_spec q Hq) as [Hq1 Hq2].
  pose proof (Z.log2_nonneg p) as Hlp. pose proof (Z.log2_nonneg q) as Hlq.
  assert (2 ^ 52 * (q * 2 ^ Z.max 0 e0) <= p * 2 ^ Z.max 0 (- e0)) as Hbase.
  { destruct (Z.le_gt_cases 0 e0) as [He|He].
    - rewrite (Z.max_r 0 e0), (Z.max_l 0 (- e0)) by lia. rewrite Z.pow_0_r.
      assert (2 ^ Z.log2 p = 2 ^ 52 * (2 ^ Z.succ (Z.log2 q) * 2 ^ e0)) as E.
      { rewrite <- !Z.pow_add_r by lia. f_equal. unfold e0. lia. }
      assert (0 < 2 ^ e0) by (apply Z.pow_pos_nonneg; lia).
      nia.
    - rewrite (Z.max_l 0 e0), (Z.max_r 0 (- e0)) by lia. rewrite Z.pow_0_r.
      assert (2 ^ Z.log2 p * 2 ^ (- e0) = 2 ^ 52 * 2 ^ Z.succ (Z.log2 q)) as E.
      { rewrite <- !Z.pow_add_r by lia. f_equal. unfold e0. lia. }
      assert (0 < 2 ^ (- e0)) by (apply Z.pow_pos_nonneg; lia).
      nia. }
  destruct (Z.leb_spec (2 ^ 53 * (q * 2 ^ Z.max 0 e0)) (p * 2 ^ Z.max 0 (- e0))) as [Hup|Hup];
    [|exact Hbase].
  destruct (Z.le_gt_cases 0 e0) as [He|He].
  - rewrite (Z.max_r 0 (e0 + 1)), (Z.max_l 0 (- (e0 + 1))) by lia.
    rewrite (Z.max_r 0 e0), (Z.max_l 0 (- e0)) in Hup by lia.
    rewrite Z.pow_add_r by lia. change (2 ^ 53) with (2 ^ 52 * 2) in Hup. lia.
  - rewrite (Z.max_l 0 (e0 + 1)), (Z.max_r 0 (- (e0 + 1))) by lia.
    rewrite (Z.max_l 0 e0), (Z.max_r 0 (- e0)) in Hup by lia.
    replace (- e0) with (- (e0 + 1) + 1) in Hup by lia.
    rewrite Z.pow_add_r in Hup by lia. change (2 ^ 53) with (2 ^ 52 * 2) in Hup. lia.
Qed.

Lemma round53_pos_error p qd :
  0 < p ->
  (Qabs (round53_pos p (Z.pos qd) - (p # qd)) <= (p # qd) * eps)%Q.
Proof.
  intros Hp. unfold round53_pos, scale2.
  pose proof (ulp_exp_lower p (Z.pos qd) Hp ltac:(lia)) as Hlow. simpl in Hlow.
  set (e := ulp_exp p (Z.pos qd)) in *.
  assert (0 < 2 ^ Z.max 0 (- e)) as HA by (apply Z.pow_pos_nonneg; lia).
  assert (0 < 2 ^ Z.max 0 e) as HB by (apply Z.pow_pos_nonneg; lia).
  set (A := 2 ^ Z.max 0 (- e)) in *. set (B := 2 ^ Z.max 0 e) in *.
  pose proof (rne_div_near (p * A) (Z.pos qd * B) ltac:(lia)) as Hnear.
  set (m := rne_div (p * A) (Z.pos qd * B)) in *.
  apply Qabs_Qle_condition.
  unfold Qle, Qminus, Qplus, Qopp, Qmult, eps. simpl.
  rewrite !Z2Pos.id by lia.
  rewrite !Pos2Z.inj_mul, !Z2Pos.id by lia.
  set (q := Z.pos qd) in *. assert (0 < q) as Hq by (unfold q; lia).
  clearbody m A B q. clear e.
  assert (m * B * q + - p * A = m * (q * B) - p * A) as -> by ring.
  set (E := m * (q * B) - p * A) in *.
  assert (9007199254740992 * Z.abs E <= p * A) as Hrel.
  { change (2 ^ 52) with 4503599627370496 in Hlow. lia. }
  clearbody E. split; nia.
Qed.

Lemma round53_error x :
  (0 < x)%Q -> (Qabs (round53 x - x) <= x * eps)%Q.
Proof.
  destruct x as [p qd]. unfold Qlt. simpl. rewrite Z.mul_1_r. intros Hp.
  unfold round53. simpl.
  destruct (Z.eqb_spec p 0); [lia|].
  destruct (Z.ltb_spec 0 p); [|lia].
  by apply round53_pos_error.
Qed.

Lemma round53_zero x : (x == 0)%Q -> round53 x = 0%Q.
Proof.
  destruct x as [p qd]. unfold Qeq. simpl. rewrite Z.mul_1_r. intros ->. done.
Qed.

(** An integer below [2^53] is a float. *)
Lemma of_int_exact n : 0 <= n < 2 ^ 53 -> (of_int n == inject_Z n)%Q.
Proof.
  intros [Hn Hlt]. unfold of_int, round53, inject_Z. simpl.
  destruct (Z.eqb_spec n 0) as [->|Hne]; [done|].
  destruct (Z.ltb_spec 0 n); [|lia].
  unfold round53_pos, scale2.
  assert (ulp_exp n 1 <= 0) as He.
  { unfold ulp_exp. simpl Z.log2.
    assert (Z.log2 n < 53) by (apply Z.log2_lt_pow2; lia).
    destruct (Z.le_gt_cases 0 (Z.log2 n - 0 - 53)); [lia|].
    case_match; lia. }
  set (e := ulp_exp n 1) in *.
  rewrite (Z.max_l 0 e), (Z.max_r 0 (- e)) by lia.
  rewrite Z.pow_0_r, !Z.mul_1_r.
  assert (0 < 2 ^ (- e)) as HA by (apply Z.pow_pos_nonneg; lia).
  replace (n * 2 ^ (- e)) with ((n * 2 ^ (- e)) * 1) at 1 by ring.
  rewrite rne_div_exact by lia.
  unfold Qeq. simpl. rewrite Z2Pos.id by lia. ring.
Qed.


Lemma round_near t : (Qabs (inject_Z (round t) - t) <= 1 # 2)%Q.
Proof.
  destruct t as [n d]. unfold round. simpl.
  pose proof (rne_div_near n (Z.pos d) ltac:(lia)) as H.
  set (r := rne_div n (Z.pos d)) in *. clearbody r.
  apply Qabs_Qle_condition.
  unfold Qle, Qminus, Qplus, Qopp, inject_Z. simpl. lia.
Qed.

(** A relative error bound survives scaling by a non-negative factor. *)
Lemma Qscale_rel a b c e :
  (0 <= c)%Q -> (Qabs (a - b) <= b * e)%Q -> (Qabs (a * c - b * c) <= b * c * e)%Q.
Proof.
  intros Hc H. apply Qabs_Qle_condition in H as [H1 H2].
  apply Qabs_Qle_condition. split; nra.
Qed.

Lemma Qscale_abs a b c e :
  (0 <= c)%Q -> (Qabs (a - b) <= e)%Q -> (Qabs (a * c - b * c) <= e * c)%Q.
Proof.
  intros Hc H. apply Qabs_Qle_condition in H as [H1 H2].
  apply Qabs_Qle_condition. split; nra.
Qed.

Lemma scaled_edge_near w L :
  0 <= w <= L -> 0 < L < 2 ^ 40 ->
  2 * Z.abs (round (mul (of_int w) (scale_factor L)) * L - 1024 * w) <= L.
Proof.
  intros Hw HL.
  assert (of_int L == inject_Z L)%Q as HLf by (apply of_int_exact; lia).
  assert (of_int w == inject_Z w)%Q as Hwf by (apply of_int_exact; lia).
  assert (0 < inject_Z L)%Q as HLpos by (rewrite <- (Zlt_Qlt 0); lia).
  assert (inject_Z L < inject_Z (2 ^ 40))%Q as HLlt by (rewrite <- Zlt_Qlt; lia).
  assert (0 <= inject_Z w)%Q as Hwpos by (rewrite <- (Zle_Qle 0); lia).
  assert (inject_Z w <= inject_Z L)%Q as Hwle by (rewrite <- Zle_Qle; lia).
  unfold scale_factor. destruct (Z.eqb_spec L 0); [lia|].
  unfold div, mul.
  set (x1 := (TARGET / of_int L)%Q).
  assert (x1 * inject_Z L == 1024)%Q as Hx1.
  { unfold x1, TARGET. rewrite HLf. change (inject_Z 1024) with 1024%Q. field. lra. }
  assert (0 < x1)%Q as Hx1pos.
  { destruct (Qlt_le_dec 0 x1) as [|Hneg]; [done|]. exfalso. nra. }
  pose proof (round53_error x1 Hx1pos) as Hs.
  set (s := round53 x1) in *.
  assert (0 <= s)%Q as Hspos.
  { pose proof Hs as Hs'. apply Qabs_Qle_condition in Hs'. unfold eps in Hs'. lra. }
  apply (Qscale_rel _ _ (inject_Z L)) in Hs; [|lra].
  set (y := (of_int w * s)%Q).
  pose proof (round_near (round53 y)) as Hr.
  apply (Qscale_abs _ _ (inject_Z L)) in Hr; [|lra].
  set (r := round (round53 y)) in *.
  assert (Qabs (round53 y * inject_Z L - y * inject_Z L) <= y * inject_Z L * eps)%Q as Ht.
  { destruct (Qlt_le_dec 0 y) as [Hy|Hy].
    - apply Qscale_rel; [lra|]. by apply round53_error.
    - assert (y == 0)%Q as Hy0.
      { apply Qle_antisym; [done|]. unfold y. rewrite Hwf.
        by apply Qmult_le_0_compat. }
      rewrite (round53_zero y Hy0). rewrite Hy0.
      apply Qabs_Qle_condition. unfold eps. lra. }
  set (t := round53 y) in *. clearbody t r.
  assert (y * inject_Z L == inject_Z w * (s * inject_Z L))%Q as Hy.
  { unfold y. rewrite Hwf. ring. }
  apply (Qscale_rel _ _ (inject_Z w)) in Hs; [|done].
  rewrite Hx1 in Hs.
  set (P := (s * inject_Z L * inject_Z w)%Q) in *.
  assert (y * inject_Z L == P)%Q as HyP by (rewrite Hy; unfold P; ring).
  rewrite HyP in Ht.
  clearbody P. clear Hy HyP Hspos y s x1 Hx1 Hx1pos.
  apply Qabs_Qle_condition in Hs, Ht, Hr.
  assert (inject_Z r * inject_Z L - 1024 * inject_Z w < inject_Z L * (1 # 2) + (1 # 2))%Q as Hup.
  { unfold eps in *. change (inject_Z (2 ^ 40)) with 1099511627776%Q in HLlt. lra. }
  assert (- (inject_Z L * (1 # 2) + (1 # 2))
          < inject_Z r * inject_Z L - 1024 * inject_Z w)%Q as Hdn.
  { unfold eps in *. change (inject_Z (2 ^ 40)) with 1099511627776%Q in HLlt. lra. }
  clear - Hup Hdn.
  unfold Qlt, Qminus, Qplus, Qopp, Qmult, inject_Z in *. simpl in *. lia.
Qed.

Lemma ulp_exp_upper p q :
  0 < p -> 0 < q ->
  let e := ulp_exp p q in
  p * 2 ^ Z.max 0 (- e) < 2 ^ 53 * (q * 2 ^ Z.max 0 e).
Proof.
  intros Hp Hq. unfold ulp_exp.
  set (e0 := Z.log2 p - Z.log2 q - 53).
  pose proof (Z.log2_spec p Hp) as [Hp1 Hp2].
  pose proof (Z.log2_spec q Hq) as [Hq1 Hq2].
  pose proof (Z.log2_nonneg p) as Hlp. pose proof (Z.log2_nonneg q) as Hlq.
  assert (p * 2 ^ Z.max 0 (- e0) < 2 ^ 54 * (q * 2 ^ Z.max 0 e0)) as Hbase.
  { destruct (Z.le_gt_cases 0 e0) as [He|He].
    - rewrite (Z.max_r 0 e0), (Z.max_l 0 (- e0)) by lia. rewrite Z.pow_0_r.
      assert (2 ^ Z.succ (Z.log2 p) = 2 ^ 54 * (2 ^ Z.log2 q * 2 ^ e0)) as E.
      { rewrite <- !Z.pow_add_r by lia. f_equal. unfold e0. lia. }
      assert (0 < 2 ^ e0) by (apply Z.pow_pos_nonneg; lia).
      nia.
    - rewrite (Z.max_l 0 e0), (Z.max_r 0 (- e0)) by lia. rewrite Z.pow_0_r.
      assert (2 ^ Z.succ (Z.log2 p) * 2 ^ (- e0) = 2 ^ 54 * 2 ^ Z.log2 q) as E.
      { rewrite <- !Z.pow_add_r by lia. f_equal. unfold e0. lia. }
      assert (0 < 2 ^ (- e0)) by (apply Z.pow_pos_nonneg; lia).
      nia. }
  destruct (Z.leb_spec (2 ^ 53 * (q * 2 ^ Z.max 0 e0)) (p * 2 ^ Z.max 0 (- e0))) as [Hup|Hup];
    [|exact Hup].
  destruct (Z.le_gt_cases 0 e0) as [He|He].
  - rewrite (Z.max_r 0 (e0 + 1)), (Z.max_l 0 (- (e0 + 1))) by lia.
    rewrite (Z.max_r 0 e0), (Z.max_l 0 (- e0)) in Hbase by lia.
    rewrite Z.pow_add_r by lia. change (2 ^ 54) with (2 ^ 53 * 2) in Hbase. lia.
  - rewrite (Z.max_l 0 (e0 + 1)), (Z.max_r 0 (- (e0 + 1))) by lia.
    rewrite (Z.max_l 0 e0), (Z.max_r 0 (- e0)) in Hbase by lia.
    replace (- e0) with (- (e0 + 1) + 1) in Hbase by lia.
    rewrite Z.pow_add_r in Hbase by lia. change (2 ^ 54) with (2 ^ 53 * 2) in Hbase. lia.
Qed.

(** The significand that [round53_pos] keeps has 53 bits (or is [2^53], the
    next power of two). *)
Lemma round53_significand p q :
  0 < p -> 0 < q ->
  let e := ulp_exp p q in
  2 ^ 52 <= rne_div (p * 2 ^ Z.max 0 (- e)) (q * 2 ^ Z.max 0 e) <= 2 ^ 53.
Proof.
  intros Hp Hq e.
  pose proof (ulp_exp_lower p q Hp Hq) as Hlo.
  pose proof (ulp_exp_upper p q Hp Hq) as Hhi. simpl in Hlo, Hhi. fold e in Hlo, Hhi.
  assert (0 < 2 ^ Z.max 0 e) as HB by (apply Z.pow_pos_nonneg; lia).
  set (N := p * 2 ^ Z.max 0 (- e)) in *. set (D := q * 2 ^ Z.max 0 e) in *.
  assert (0 < D) as HD by (unfold D; lia).
  pose proof (rne_div_near N D HD) as Hnear.
  change (2 ^ 52) with 4503599627370496 in *.
  change (2 ^ 53) with 9007199254740992 in *.
  clearbody N D. split; nia.
Qed.

End Floats.

(** ** Rows: [first] and [update_first] *)
Section Rows.
Context {A : Type}.
Implicit Types (p q : A -> bool) (f : A -> A) (rows : list A).

Lemma first_update_first p f rows :
  (forall r, p r = true -> p (f r) = true) ->
  first p (update_first p f rows) = f <$> first p rows.
Proof.
  intros Hp. induction rows as [|r rest IH]; simpl; [done|].
  destruct (p r) eqn:E; simpl.
  - by rewrite (Hp r E).
  - by rewrite E.
Qed.

Lemma update_first_none p f rows :
  first p rows = None -> update_first p f rows = rows.
Proof.
  induction rows as [|r rest IH]; simpl; [done|].
  destruct (p r); [done|]. intros H. by rewrite IH.
Qed.

Lemma update_first_id p f rows :
  (forall r, first p rows = Some r -> f r = r) ->
  update_first p f rows = rows.
Proof.
  induction rows as [|r rest IH]; simpl; [done|].
  destruct (p r); intros H.
  - by rewrite H.
  - by rewrite IH.
Qed.

Lemma update_first_twice p f g rows :
  (forall r, p r = true -> p (f r) = true) ->
  update_first p g (update_first p f rows) = update_first p (fun r => g (f r)) rows.
Proof.
  intros Hp. induction rows as [|r rest IH]; simpl; [done|].
  destruct (p r) eqn:E; simpl.
  - by rewrite (Hp r E).
  - by rewrite E, IH.
Qed.

Lemma update_first_ext p f g rows :
  (forall r, first p rows = Some r -> f r = g r) ->
  update_first p f rows = update_first p g rows.
Proof.
  induction rows as [|r rest IH]; simpl; [done|].
  destruct (p r); intros H.
  - by rewrite H.
  - by rewrite IH.
Qed.

(** A query [q] that the update does not disturb: the updated row answers
    [q] as before. *)
Lemma first_update_first_other p q f rows :
  (forall r, q (f r) = q r) ->
  (forall r, q r = true -> f r = r \/ p r = false) ->
  first q (update_first p f rows) = first q rows.
Proof.
  intros Hq Hfix. induction rows as [|r rest IH]; simpl; [done|].
  destruct (p r) eqn:E; simpl.
  - rewrite Hq. destruct (q r) eqn:Eq; [|done].
    destruct (Hfix r Eq) as [->|]; [done|congruence].
  - by rewrite IH.
Qed.

Lemma update_first_Forall (P : A -> Prop) p f rows :
  (forall r, P r -> P (f r)) ->
  Forall P rows -> Forall P (update_first p f rows).
Proof.
  intros Hf. induction 1 as [|r rest Hr Hrest IH]; simpl; [constructor|].
  destruct (p r); constructor; auto.
Qed.

Lemma first_Some_true p rows r : first p rows = Some r -> p r = true.
Proof. intros H. by apply find_some in H as [_ H]. Qed.

Lemma first_Some_Forall (P : A -> Prop) p rows r :
  Forall P rows -> first p rows = Some r -> P r.
Proof.
  intros HF H. apply find_some in H as [H _].
  rewrite Forall_forall in HF. apply HF. by apply list_elem_of_In.
Qed.

Lemma first_app_Some p rows more r :
  first p rows = Some r -> first p (rows ++ more) = Some r.
Proof.
  induction rows as [|x rest IH]; simpl; [done|].
  destruct (p x); auto.
Qed.

(** An update that makes the row it touches the first answer to a query
    [q] that had none. *)
Lemma update_first_new p q f g rows :
  first q rows = None ->
  (forall r, p r = true -> q (f r) = true) ->
  update_first q g (update_first p f rows) = update_first p (fun r => g (f r)) rows.
Proof.
  intros Hq Hpq. induction rows as [|r rest IH]; simpl in *; [done|].
  destruct (q r) eqn:Eq; [done|].
  destruct (p r) eqn:Ep; simpl.
  - by rewrite (Hpq r Ep).
  - by rewrite Eq, IH.
Qed.

Lemma first_update_first_new p q f rows r :
  first q rows = None ->
  first p rows = Some r ->
  q (f r) = true ->
  first q (update_first p f rows) = Some (f r).
Proof.
  induction rows as [|x rest IH]; simpl; [done|].
  destruct (q x) eqn:Eq; [done|].
  destruct (p x) eqn:Ep; simpl.
  - intros _ [= ->] Hq. by rewrite Hq.
  - intros H1 H2 H3. rewrite Eq. auto.
Qed.

Lemma fmap_update_first {B} (g : A -> B) p f rows :
  (forall r, g (f r) = g r) ->
  g <$> update_first p f rows = g <$> rows.
Proof.
  intros Hg. induction rows as [|r rest IH]; simpl; [done|].
  destruct (p r); rewrite !fmap_cons; [by rewrite Hg|by rewrite IH].
Qed.

End Rows.

(** ** The generation route *)
Section TransformProps.

Variable secure_filename : string -> string.
Variable splitext_base : string -> string.
Variable image_size : string -> option (Z * Z).

Local Abbreviation transform := (transform secure_filename splitext_base image_size).
Local Abbreviation transform_try := (transform_try secure_filename splitext_base image_size).

(** The [try] either leaves the database alone and reports a failure (the
    error page, or a server error for an account whose count is NULL), or it
    got a usable answer, recorded the generation and debited. *)
Lemma transform_try_cases req u f db :
  (exists e i, response (transform_try req u f db)
               = rendered (User.generation_count u) (RenderIndex (Some e) i None)
               /\ db_after (transform_try req u f db) = db
               /\ (is_empty (secure_filename (up_filename f)) = true
                   \/ image_size (up_content f) = None
                   \/ usable_answer image_size (tr_answer req) = false))
  \/ (exists i o, response (transform_try req u f db) = RenderIndex None (Some i) (Some o)
                 /\ db_after (transform_try req u f db) = record_and_debit u i o db
                 /\ is_empty (secure_filename (up_filename f)) = false
                 /\ is_Some (image_size (up_content f))
                 /\ usable_answer image_size (tr_answer req) = true).
Proof.
  unfold transform_try, usable_answer, first_image.
  destruct (is_empty (secure_filename (up_filename f))) eqn:Hname.
  { left. eexists _, _. simpl. eauto. }
  destruct (image_size (up_content f)) as [[w h]|] eqn:Hin.
  2:{ left. eexists _, _. simpl. eauto 6. }
  destruct (resize_dims w h) as [new_w new_h].
  destruct (tr_answer req) as [candidates|]; simpl.
  2:{ left. eexists _, _. split_and!; eauto. }
  destruct (first_candidate_parts candidates) as [parts|]; simpl.
  2:{ left. eexists _, _. split_and!; eauto. }
  destruct (image_parts parts) as [|data rest]; simpl.
  { left. eexists _, _. split_and!; eauto. }
  destruct (image_size data) eqn:Hout; simpl.
  - right. eexists _, _. split_and!; eauto.
  - left. eexists _, _. split_and!; eauto.
Qed.

Lemma transform_try_response req u f db e :
  response (transform_try req u f db) <> Redirect e.
Proof.
  destruct (transform_try_cases req u f db) as [(? & ? & -> & _)|(? & ? & -> & _)];
    [unfold rendered; by destruct (User.generation_count u)|done].
Qed.

(** C7: [authorize] only reads the balance and answers whether it covers the
    cost; an authenticated [transform] is turned away to the upgrade page
    exactly when the balance is below 500, and then it has changed nothing and
    has called nothing outside: its only effect is the flashed message. *)
Theorem transform_insufficient_credits req db u :
  load_user (tr_session req) db = Some u ->
  (forall cost, authorize u cost = true <-> cost <= User.credits_remaining u)
  /\ (response (transform req db) = Redirect "upgrade" <-> User.credits_remaining u < 500)
  /\ (User.credits_remaining u < 500 ->
      db_after (transform req db) = db
      /\ exists m, effects (transform req db) = [Flash m "info"]).
Proof.
  intros Hu. split_and!.
  - intros cost. unfold authorize. rewrite negb_true_iff, Z.ltb_ge. done.
  - unfold transform, CREDITS_PER_IMAGE. rewrite Hu.
    destruct (Z.ltb_spec (User.credits_remaining u) 500) as [Hlt|Hge]; simpl.
    + done.
    + split; [|lia]. destruct (file_given (tr_file req)); simpl; [|done].
      intros H. by apply transform_try_response in H.
  - intros Hlt. unfold transform, CREDITS_PER_IMAGE. rewrite Hu.
    apply Z.ltb_lt in Hlt. rewrite Hlt. simpl. eauto.
Qed.

(** C5: when the collaborator's answer is empty or malformed (the call
    raises, the answer has no candidate, no parts, no inline picture, or one
    that does not decode), [transform] leaves the whole database as it was: no
    debit, no count, no record.  When the request got as far as the
    collaborator (a signed-in account that can pay, a named file that
    decodes), the effects are the saved input, the one call and the flashed
    generation error, nothing more; the answer is the page with that error,
    or, for an account whose count is NULL, the server error of line 608. *)
Theorem transform_generation_failed req db :
  usable_answer image_size (tr_answer req) = false ->
  db_after (transform req db) = db
  /\ forall u f w h,
       load_user (tr_session req) db = Some u ->
       CREDITS_PER_IMAGE <= User.credits_remaining u ->
       file_given (tr_file req) = Some f ->
       is_empty (secure_filename (up_filename f)) = false ->
       image_size (up_content f) = Some (w, h) ->
       exists e,
         (e = GenerationRaised \/ e = MalformedResponse \/ e = NoImageGenerated
          \/ e = CannotOpenOutput)
         /\ let input := path_join UPLOAD_FOLDER
                           (tr_timestamp req +:+ "_" +:+ secure_filename (up_filename f)) in
            effects (transform req db)
            = [SaveFile input; GenerateContent (resize_dims w h).1 (resize_dims w h).2;
               FlashError e]
            /\ (is_Some (User.generation_count u) ->
                response (transform req db) = RenderIndex (Some e) (Some ("/" +:+ input)) None)
            /\ (User.generation_count u = None -> response (transform req db) = ServerError).
Proof.
  intros Hbad. split.
  - unfold transform.
    destruct (load_user (tr_session req) db) as [u|]; simpl; [|done].
    destruct (User.credits_remaining u <? CREDITS_PER_IMAGE); simpl; [done|].
    destruct (file_given (tr_file req)) as [f|]; simpl; [|done].
    destruct (transform_try_cases req u f db)
      as [(e & i & _ & Hdb & _)|(i & o & _ & _ & _ & _ & Hok)]; [done|congruence].
  - intros u f w h Hu Hpay Hf Hname Hsize. unfold transform. rewrite Hu.
    apply Z.ltb_ge in Hpay. rewrite Hpay, Hf.
    unfold transform_try. rewrite Hname, Hsize.
    destruct (resize_dims w h) as [new_w new_h]. cbn [fst snd].
    unfold usable_answer, first_image in Hbad.
    assert (forall e, rendered (User.generation_count u)
                        (RenderIndex (Some e)
                           (Some ("/" +:+ path_join UPLOAD_FOLDER
                                            (tr_timestamp req +:+ "_" +:+
                                             secure_filename (up_filename f)))) None)
                      = ServerError <-> User.generation_count u = None) as Hnull.
    { intros e. unfold rendered. by destruct (User.generation_count u). }
    assert (forall e i, is_Some (User.generation_count u) ->
              rendered (User.generation_count u) (RenderIndex (Some e) i None)
              = RenderIndex (Some e) i None) as Hset.
    { intros e i [n ->]. done. }
    destruct (tr_answer req) as [candidates|]; simpl in *.
    2:{ exists GenerationRaised. split; [auto|]. split_and!; [done|by apply Hset|by apply Hnull]. }
    destruct (first_candidate_parts candidates) as [parts|]; simpl in *.
    2:{ exists MalformedResponse. split; [auto|]. split_and!; [done|by apply Hset|by apply Hnull]. }
    destruct (image_parts parts) as [|data rest]; simpl in *.
    { exists NoImageGenerated. split; [auto|]. split_and!; [done|by apply Hset|by apply Hnull]. }
    destruct (image_size data) eqn:Hout; simpl in *; [done|].
    exists CannotOpenOutput. split; [auto|]. split_and!; [done|by apply Hset|by apply Hnull].
Qed.

End TransformProps.

(** ** The tier catalog *)

Lemma PLAN_CREDITS_lookup tier credits :
  PLAN_CREDITS !! tier = Some credits ->
  (tier = "free" /\ credits = 10000) \/ (tier = "starter" /\ credits = 120000)
  \/ (tier = "creator" /\ credits = 300000) \/ (tier = "enterprise" /\ credits = 800000)
  \/ (tier = "legacy_pro" /\ credits = 200000).
Proof.
  unfold PLAN_CREDITS. rewrite !lookup_insert_Some, lookup_empty.
  intros H. repeat (destruct H as [[<- <-]|[_ H]]; [tauto|]). done.
Qed.

Lemma PLAN_CREDITS_pos tier credits :
  PLAN_CREDITS !! tier = Some credits -> 0 < credits.
Proof.
  intros H. apply PLAN_CREDITS_lookup in H.
  repeat destruct H as [H|H]; destruct H as [_ ->]; lia.
Qed.

(** Whatever the configured price ids are, a price resolves to a paid tier
    of the catalog. *)
Lemma tier_of_price_cases cfg price_id :
  tier_of_price cfg price_id = "starter" \/ tier_of_price cfg price_id = "creator"
  \/ tier_of_price cfg price_id = "enterprise".
Proof.
  unfold tier_of_price. destruct price_id as [p|]; simpl; [|auto].
  destruct (PRICE_ID_TO_TIER cfg !! p) as [t|] eqn:E; simpl; [|auto].
  unfold PRICE_ID_TO_TIER in E. rewrite !lookup_insert_Some, lookup_empty in E.
  repeat (destruct E as [[_ <-]|[_ E]]; [tauto|]). done.
Qed.

Lemma tier_of_price_credits cfg price_id :
  is_Some (PLAN_CREDITS !! tier_of_price cfg price_id).
Proof.
  destruct (tier_of_price_cases cfg price_id) as [-> | [-> | ->]]; by eexists.
Qed.

(** ** The ledger invariant *)
Section Ledger.

Variable cfg : Config.
Variable secure_filename : string -> string.
Variable splitext_base : string -> string.
Variable image_size : string -> option (Z * Z).

Local Abbreviation handle := (handle cfg secure_filename splitext_base image_size).
Local Abbreviation run := (run cfg secure_filename splitext_base image_size).

Lemma run_cons r rs db : run (r :: rs) db = run rs (db_after (handle r db)).
Proof. done. Qed.

Lemma debit_nonneg u : 0 <= User.credits_remaining (debit u).
Proof. simpl. lia. Qed.

(** Past the credit check the floor of [debit] is never reached. *)
Lemma debit_exact u :
  CREDITS_PER_IMAGE <= User.credits_remaining u ->
  User.credits_remaining (debit u) = User.credits_remaining u - CREDITS_PER_IMAGE.
Proof. simpl. lia. Qed.

Lemma grant_nonneg b tier credits u :
  PLAN_CREDITS !! tier = Some credits -> 0 <= User.credits_remaining (grant b tier credits u).
Proof. intros H%PLAN_CREDITS_pos. simpl. lia. Qed.

Lemma set_users_nonneg us db :
  Forall (fun u => 0 <= User.credits_remaining u) us -> credits_nonneg (set_users us db).
Proof. done. Qed.

Lemma ensure_stripe_customer_nonneg created u db :
  credits_nonneg db -> credits_nonneg (ensure_stripe_customer created u db).1.2.
Proof.
  intros H. unfold ensure_stripe_customer.
  destruct (truthy _); [done|]. destruct created; [|done]. simpl.
  apply set_users_nonneg, update_first_Forall; [|done]. by intros [].
Qed.

Lemma start_session_nonneg req u db :
  credits_nonneg db -> credits_nonneg (db_after (start_session req u db)).
Proof.
  intros H. unfold start_session.
  pose proof (ensure_stripe_customer_nonneg (ug_customer req) u db H) as H1.
  destruct (ensure_stripe_customer _ _ _) as [[[c|] db1] eff]; simpl in *; [|done].
  by destruct (ug_url req).
Qed.

Lemma post_checkout_try_nonneg req db db1 :
  credits_nonneg db -> post_checkout_try cfg req db = Some db1 -> credits_nonneg db1.
Proof.
  intros H. unfold post_checkout_try. intros Htry.
  repeat (simplify_option_eq || case_match); try done;
    apply set_users_nonneg, update_first_Forall; try done;
    intros ? _; by eapply grant_nonneg.
Qed.

Lemma checkout_completed_try_nonneg ev retrieved c db db1 :
  credits_nonneg db -> checkout_completed_try cfg ev retrieved c db = Some db1 ->
  credits_nonneg db1.
Proof.
  intros H. unfold checkout_completed_try. intros Htry.
  repeat (simplify_option_eq || case_match); try done;
    apply set_users_nonneg, update_first_Forall; try done;
    intros ? _; by eapply grant_nonneg.
Qed.

Lemma subscription_changed_nonneg ev db db1 :
  credits_nonneg db -> subscription_changed cfg ev db = Some db1 -> credits_nonneg db1.
Proof.
  intros H. unfold subscription_changed. intros Htry.
  repeat (simplify_option_eq || case_match); try done;
    apply set_users_nonneg, update_first_Forall; try done;
    intros ? _; by eapply grant_nonneg.
Qed.

Lemma stripe_webhook_nonneg req db :
  credits_nonneg db -> credits_nonneg (db_after (stripe_webhook cfg req db)).
Proof.
  intros H. unfold stripe_webhook. destruct (wh_event req) as [ev|]; [|done].
  assert (credits_nonneg (checkout_completed cfg ev (wh_retrieve req) db).1) as H1.
  { unfold checkout_completed. destruct (truthy _); [|done].
    destruct (checkout_completed_try _ _ _ _ _) eqn:E; [|done].
    simpl. by eapply checkout_completed_try_nonneg. }
  destruct (String.eqb (ev_type ev) "checkout.session.completed").
  - destruct (checkout_completed _ _ _ _) as [db1 eff]. simpl in H1.
    destruct (_ || _); [|done].
    destruct (subscription_changed cfg ev db1) eqn:E; [|done].
    simpl. exact (subscription_changed_nonneg _ _ _ H1 E).
  - simpl. destruct (_ || _); [|done].
    destruct (subscription_changed cfg ev db) eqn:E; [|done].
    simpl. exact (subscription_changed_nonneg _ _ _ H E).
Qed.

Lemma transform_nonneg req db :
  credits_nonneg db ->
  credits_nonneg (db_after (transform secure_filename splitext_base image_size req db)).
Proof.
  intros H. unfold transform.
  destruct (load_user _ _) as [u|]; [|done].
  destruct (_ <? _); [done|]. destruct (file_given _) as [f|]; [|done].
  destruct (transform_try_cases secure_filename splitext_base image_size req u f db)
    as [(? & ? & _ & -> & _)|(? & ? & _ & -> & _)]; [done|].
  unfold record_and_debit, credits_nonneg. simpl.
  apply update_first_Forall; [|done]. intros r _. apply debit_nonneg.
Qed.

Lemma handle_nonneg r db :
  credits_nonneg db -> credits_nonneg (db_after (handle r db)).
Proof.
  intros H. destruct r; simpl.
  - unfold signup. destruct (first _ _); [done|].
    destruct (PLAN_CREDITS !! "free") as [c|] eqn:E; [|done]. simpl.
    apply set_users_nonneg, Forall_app. split; [done|].
    constructor; [|done]. simpl. apply PLAN_CREDITS_pos in E. lia.
  - unfold upgrade. destruct (load_user _ _); [|done].
    destruct (User.is_subscribed _); [done|]. destruct (_ && _); [|done].
    by apply start_session_nonneg.
  - unfold billing_portal. destruct (load_user _ _); [|done].
    by apply start_session_nonneg.
  - unfold post_checkout. destruct (truthy _); [|done].
    destruct (post_checkout_try _ _ _) eqn:E; [|done].
    simpl. by eapply post_checkout_try_nonneg.
  - by apply stripe_webhook_nonneg.
  - by apply transform_nonneg.
  - unfold mobile_start. by destruct (first _ _).
  - unfold mobile_upload_post. destruct (first _ _) as [t|]; [|done].
    destruct (MobileUploadToken.used t); [done|]. by destruct (file_given _).
Qed.

(** C1: from a database where no balance is negative, no sequence of
    requests ([transform] and every other route) ever produces a negative
    balance, for any account. *)
Theorem credits_never_negative (rs : list Request) (db : DB) :
  credits_nonneg db -> credits_nonneg (run rs db).
Proof.
  revert db. induction rs as [|r rs IH]; intros db H; [done|].
  simpl. apply IH. by apply handle_nonneg.
Qed.

End Ledger.

(** ** Spending a balance down *)
Section Scenario.

Variable cfg : Config.
Variable secure_filename : string -> string.
Variable splitext_base : string -> string.
Variable image_size : string -> option (Z * Z).

Local Abbreviation transform := (transform secure_filename splitext_base image_size).
Local Abbreviation run := (run cfg secure_filename splitext_base image_size).
Local Abbreviation can_succeed := (can_succeed secure_filename image_size).

(** A request that can succeed, from an account that can pay, does succeed:
    one record more, one debit. *)
Lemma transform_success req db uid u :
  can_succeed uid req = true ->
  first (has_id uid) (users db) = Some u ->
  CREDITS_PER_IMAGE <= User.credits_remaining u ->
  exists i o,
    response (transform req db) = RenderIndex None (Some i) (Some o)
    /\ db_after (transform req db) = record_and_debit u i o db.
Proof.
  unfold can_succeed. rewrite !andb_true_iff, bool_decide_eq_true.
  intros [[Hs Hf] Hok] Hu Hcr. unfold transform, load_user. rewrite Hs. simpl.
  rewrite Hu. apply Z.ltb_ge in Hcr. rewrite Hcr.
  destruct (file_given (tr_file req)) as [f|]; [|done].
  apply andb_true_iff in Hf as [Hname Hsize].
  apply negb_true_iff in Hname. apply bool_decide_eq_true in Hsize as [wh Hsize].
  destruct (transform_try_cases secure_filename splitext_base image_size req u f db)
    as [(e & i & _ & _ & [H|[H|H]])|(i & o & Hr & Hdb & _)]; try congruence.
  eauto.
Qed.

Lemma record_and_debit_user uid u i o db :
  first (has_id uid) (users db) = Some u ->
  first (has_id uid) (users (record_and_debit u i o db)) = Some (debit u).
Proof.
  intros Hu. pose proof (first_Some_true _ _ _ Hu) as Hid.
  apply Z.eqb_eq in Hid. simpl. rewrite Hid.
  rewrite first_update_first; [by rewrite Hu|]. by intros [].
Qed.

(** [n] successful generations cost [500 * n], as long as the balance
    covers them. *)
Lemma generations_spend reqs : forall db uid u,
  first (has_id uid) (users db) = Some u ->
  Forall (fun r => can_succeed uid r = true) reqs ->
  CREDITS_PER_IMAGE * Z.of_nat (length reqs) <= User.credits_remaining u ->
  exists u',
    first (has_id uid) (users (run (Transform <$> reqs) db)) = Some u'
    /\ User.credits_remaining u' =
       User.credits_remaining u - CREDITS_PER_IMAGE * Z.of_nat (length reqs)
    /\ length (generations (run (Transform <$> reqs) db))
       = (length (generations db) + length reqs)%nat.
Proof.
  induction reqs as [|r reqs IH]; intros db uid u Hu Hall Hcr.
  - exists u. simpl in *. split_and!; [done|lia|lia].
  - apply Forall_cons in Hall as [Hr Hall].
    rewrite length_cons, Nat2Z.inj_succ in Hcr.
    assert (CREDITS_PER_IMAGE <= User.credits_remaining u) as Hpay
      by (unfold CREDITS_PER_IMAGE in *; lia).
    destruct (transform_success r db uid u Hr Hu Hpay) as (i & o & _ & Hdb).
    pose proof (record_and_debit_user uid u i o db Hu) as Hu'.
    rewrite <- Hdb in Hu'.
    destruct (IH _ uid (debit u) Hu' Hall) as (u' & Hfirst & Hbal & Hlen).
    { rewrite debit_exact by done. unfold CREDITS_PER_IMAGE in *. lia. }
    exists u'. rewrite fmap_cons, run_cons. cbn [handle]. split_and!.
    + done.
    + rewrite Hbal, debit_exact by done. rewrite length_cons, Nat2Z.inj_succ. lia.
    + rewrite Hlen, Hdb. simpl. rewrite length_app. simpl. lia.
Qed.

(** C8: an account with 10000 credits (the free tier's grant) pays for
    twenty successful generations at 500 each and is left with exactly 0;
    [authorize] then answers false and a twenty-first [transform] is turned
    away to the upgrade page without touching the database. *)
Theorem twenty_generations_exhaust reqs db uid u :
  first (has_id uid) (users db) = Some u ->
  User.credits_remaining u = 10000 ->
  length reqs = 20%nat ->
  Forall (fun r => can_succeed uid r = true) reqs ->
  exists u20,
    first (has_id uid) (users (run (Transform <$> reqs) db)) = Some u20
    /\ User.credits_remaining u20 = 0
    /\ length (generations (run (Transform <$> reqs) db)) = (length (generations db) + 20)%nat
    /\ authorize u20 CREDITS_PER_IMAGE = false
    /\ forall req, tr_session req = Some uid ->
         response (transform req (run (Transform <$> reqs) db)) = Redirect "upgrade"
         /\ db_after (transform req (run (Transform <$> reqs) db)) = run (Transform <$> reqs) db.
Proof.
  intros Hu Hcr Hlen Hall.
  destruct (generations_spend reqs db uid u Hu Hall) as (u20 & Hfirst & Hbal & Hgen).
  { rewrite Hlen, Hcr. unfold CREDITS_PER_IMAGE. lia. }
  rewrite Hlen, Hcr in Hbal. unfold CREDITS_PER_IMAGE in Hbal. simpl in Hbal.
  exists u20. split_and!.
  - done.
  - lia.
  - by rewrite Hgen, Hlen.
  - unfold authorize, CREDITS_PER_IMAGE. rewrite Hbal. done.
  - intros req Hs. unfold transform, load_user. rewrite Hs. simpl. rewrite Hfirst.
    unfold CREDITS_PER_IMAGE. rewrite Hbal. done.
Qed.

End Scenario.

(** ** The upload hand-off *)
Section Handoff.

Variable cfg : Config.
Variable secure_filename : string -> string.
Variable splitext_base : string -> string.
Variable image_size : string -> option (Z * Z).

Local Abbreviation upload_post := (mobile_upload_post secure_filename).
Local Abbreviation handle := (handle cfg secure_filename splitext_base image_size).
Local Abbreviation run := (run cfg secure_filename splitext_base image_size).

Lemma file_given_None (file : option Upload) :
  file_given file = None <->
  file = None \/ exists f, file = Some f /\ up_filename f = EmptyString.
Proof.
  unfold file_given, is_empty. destruct file as [f|].
  - destruct (String.eqb_spec (up_filename f) EmptyString) as [He|Hne].
    + split; [|done]. intros _. right. by exists f.
    + split; [done|]. intros [?|(g & [= <-] & ?)]; done.
  - split; [auto|done].
Qed.

(** A token that is unknown or used is turned away, nothing changes. *)
Lemma deposit_rejected req db :
  (first (has_token (mu_token req)) (tokens db) = None
   \/ exists t, first (has_token (mu_token req)) (tokens db) = Some t
                /\ MobileUploadToken.used t = true) ->
  response (upload_post req db) = expired
  /\ db_after (upload_post req db) = db
  /\ effects (upload_post req db) = [].
Proof.
  unfold mobile_upload_post. intros [->|(t & -> & ->)]; done.
Qed.

(** A named file on a known, unused token is stored: the row's path and its
    [used] flag are written by the same update, nothing else changes. *)
Lemma deposit_accepted req db t f :
  first (has_token (mu_token req)) (tokens db) = Some t ->
  MobileUploadToken.used t = false ->
  file_given (mu_file req) = Some f ->
  exists path,
    response (upload_post req db) = RenderMobileUpload true
    /\ db_after (upload_post req db)
       = set_tokens (update_first (has_token (mu_token req)) (deposit path) (tokens db)) db
    /\ first (has_token (mu_token req)) (tokens (db_after (upload_post req db)))
       = Some (deposit path t).
Proof.
  intros Ht Hu Hf. unfold mobile_upload_post. rewrite Ht, Hu, Hf.
  eexists. split_and!; [done|done|]. simpl.
  rewrite first_update_first; [by rewrite Ht|]. by intros [].
Qed.

(** No route changes the first row of a used token. *)
Lemma used_token_stable r db tok t :
  first (has_token tok) (tokens db) = Some t ->
  MobileUploadToken.used t = true ->
  first (has_token tok) (tokens (db_after (handle r db))) = Some t.
Proof.
  intros Ht Hused. destruct r; simpl.
  - unfold signup. repeat case_match; done.
  - unfold upgrade, start_session, ensure_stripe_customer.
    repeat case_match; simplify_eq; done.
  - unfold billing_portal, start_session, ensure_stripe_customer.
    repeat case_match; simplify_eq; done.
  - unfold post_checkout, post_checkout_try.
    repeat (case_match || simplify_option_eq); done.
  - unfold stripe_webhook, checkout_completed, checkout_completed_try, subscription_changed.
    repeat (case_match || simplify_option_eq); done.
  - unfold transform. repeat case_match; try done.
    match goal with |- context [transform_try ?a ?b ?c ?req ?u ?f ?d] =>
      destruct (transform_try_cases a b c req u f d)
        as [(? & ? & _ & -> & _)|(? & ? & _ & -> & _)] end; done.
  - unfold mobile_start. destruct (first (has_token fresh) _); [done|].
    simpl. by apply first_app_Some.
  - unfold mobile_upload_post.
    destruct (first (has_token (mu_token req)) (tokens db)) as [t'|] eqn:Ht'; [|done].
    destruct (MobileUploadToken.used t') eqn:Hu'; [done|].
    destruct (file_given (mu_file req)); [|done]. simpl.
    rewrite first_update_first_other; [done|by intros []|].
    intros row Hrow. right. unfold has_token in *.
    destruct (String.eqb_spec (MobileUploadToken.token row) (mu_token req)) as [Heq|]; [|done].
    apply String.eqb_eq in Hrow. rewrite Heq in Hrow. rewrite Hrow in Ht'.
    congruence.
Qed.

Lemma used_token_stable_run rs : forall db tok t,
  first (has_token tok) (tokens db) = Some t ->
  MobileUploadToken.used t = true ->
  first (has_token tok) (tokens (run rs db)) = Some t.
Proof.
  induction rs as [|r rs IH]; intros db tok t Ht Hu; [done|].
  rewrite run_cons. apply IH; [|done]. by apply used_token_stable.
Qed.

(** The accepted deposit, with the path it saves the file under (lines 671
    and 672) and the row it leaves. *)
Lemma deposit_accepted_path req db t f :
  first (has_token (mu_token req)) (tokens db) = Some t ->
  MobileUploadToken.used t = false ->
  file_given (mu_file req) = Some f ->
  let filename := if is_empty (secure_filename (up_filename f))
                  then mu_token req +:+ ".jpg" else secure_filename (up_filename f) in
  let path := path_join UPLOAD_FOLDER ("mobile_" +:+ mu_token req +:+ "_" +:+ filename) in
  let stored := MobileUploadToken.mk (MobileUploadToken.id t) (MobileUploadToken.token t)
                  true (Some ("/" +:+ path)) (MobileUploadToken.user_id t) in
  upload_post req db
  = mkOutcome (RenderMobileUpload true)
      (set_tokens (update_first (has_token (mu_token req)) (fun _ => stored) (tokens db)) db)
      [SaveFile path]
  /\ first (has_token (mu_token req)) (tokens (db_after (upload_post req db))) = Some stored.
Proof.
  intros Ht Hu Hf filename path stored.
  assert (upload_post req db
          = mkOutcome (RenderMobileUpload true)
              (set_tokens (update_first (has_token (mu_token req)) (fun _ => stored)
                             (tokens db)) db)
              [SaveFile path]) as Hout.
  { unfold mobile_upload_post. rewrite Ht, Hu, Hf. cbn zeta. f_equal. f_equal.
    apply update_first_ext. intros r. rewrite Ht. by intros [= <-]. }
  split; [exact Hout|]. rewrite Hout. cbn [db_after set_tokens tokens].
  rewrite first_update_first; [by rewrite Ht|].
  intros r _. unfold has_token, stored. cbn [MobileUploadToken.token].
  by apply first_Some_true in Ht.
Qed.

(** C6: a deposit on an unknown or used token is rejected and changes
    nothing.  A deposit of a named file on a known, unused token saves the
    file under [static/uploads/mobile_<token>_<name>] ([<name>] is the
    secured file name, or [<token>.jpg] when that is empty) and, in one
    update of that row alone, stores this path with a leading slash and sets
    [used].  After it, whatever requests are served in between, every
    further deposit on that token is rejected without an effect and the
    stored row, path included, stays as it was. *)
Theorem deposit_exactly_once req db :
  ((first (has_token (mu_token req)) (tokens db) = None
    \/ exists t, first (has_token (mu_token req)) (tokens db) = Some t
                 /\ MobileUploadToken.used t = true) ->
   response (upload_post req db) = expired
   /\ db_after (upload_post req db) = db
   /\ effects (upload_post req db) = [])
  /\ (forall t f,
      first (has_token (mu_token req)) (tokens db) = Some t ->
      MobileUploadToken.used t = false ->
      file_given (mu_file req) = Some f ->
      let filename := if is_empty (secure_filename (up_filename f))
                      then mu_token req +:+ ".jpg" else secure_filename (up_filename f) in
      let path := path_join UPLOAD_FOLDER ("mobile_" +:+ mu_token req +:+ "_" +:+ filename) in
      let stored := MobileUploadToken.mk (MobileUploadToken.id t) (MobileUploadToken.token t)
                      true (Some ("/" +:+ path)) (MobileUploadToken.user_id t) in
      response (upload_post req db) = RenderMobileUpload true
      /\ effects (upload_post req db) = [SaveFile path]
      /\ db_after (upload_post req db)
         = set_tokens (update_first (has_token (mu_token req)) (fun _ => stored) (tokens db)) db
      /\ first (has_token (mu_token req)) (tokens (db_after (upload_post req db)))
         = Some stored
      /\ forall rs retry,
           mu_token retry = mu_token req ->
           let db1 := run rs (db_after (upload_post req db)) in
           response (upload_post retry db1) = expired
           /\ db_after (upload_post retry db1) = db1
           /\ effects (upload_post retry db1) = []
           /\ first (has_token (mu_token req)) (tokens db1) = Some stored).
Proof.
  split.
  - apply deposit_rejected.
  - intros t f Ht Hu Hf filename path stored.
    destruct (deposit_accepted_path req db t f Ht Hu Hf) as [Hout Hrow].
    fold filename path stored in Hout, Hrow.
    split_and!; [by rewrite Hout|by rewrite Hout|by rewrite Hout|exact Hrow|].
    intros rs retry Htok db1.
    assert (first (has_token (mu_token req)) (tokens db1) = Some stored) as Hrow1
      by (by apply used_token_stable_run).
    destruct (deposit_rejected retry db1) as (? & ? & ?); [|done].
    right. rewrite Htok. eauto.
Qed.

(** C10: a deposit that carries no file, or a file without a name, on a
    known, unused token is answered with the upload form again and leaves the
    database, the token included, exactly as it was; a later deposit of a
    named file on the same token is therefore accepted. *)
Theorem deposit_without_file req db t :
  first (has_token (mu_token req)) (tokens db) = Some t ->
  MobileUploadToken.used t = false ->
  (mu_file req = None \/ exists f, mu_file req = Some f /\ up_filename f = EmptyString) ->
  response (upload_post req db) = RenderMobileUpload false
  /\ db_after (upload_post req db) = db
  /\ first (has_token (mu_token req)) (tokens (db_after (upload_post req db)))
     = Some t
  /\ forall f, up_filename f <> EmptyString ->
       let later := mkMobileUpload (mu_token req) (Some f) in
       response (upload_post later (db_after (upload_post req db)))
       = RenderMobileUpload true
       /\ exists path,
            first (has_token (mu_token req))
              (tokens (db_after (upload_post later (db_after (upload_post req db)))))
            = Some (MobileUploadToken.mk (MobileUploadToken.id t) (MobileUploadToken.token t)
                      true (Some path) (MobileUploadToken.user_id t)).
Proof.
  intros Ht Hu Hfile. apply file_given_None in Hfile.
  assert (upload_post req db
          = mkOutcome (RenderMobileUpload false) db [Flash "Please choose a photo." "error"])
    as ->.
  { unfold mobile_upload_post. by rewrite Ht, Hu, Hfile. }
  simpl. split_and!; [done|done|done|].
  intros f Hname.
  destruct (deposit_accepted (mkMobileUpload (mu_token req) (Some f)) db t f)
    as (path & Hr & _ & Hrow); [done|done| |eauto].
  simpl. unfold is_empty. by destruct (String.eqb_spec (up_filename f) EmptyString).
Qed.

End Handoff.

(** ** Reconciliation with Stripe *)
Section Reconciliation.

Variable cfg : Config.

Lemma grant_idem b tier credits u :
  grant b tier credits (grant b tier credits u) = grant b tier credits u.
Proof. done. Qed.

Lemma grant_customer b tier credits u :
  User.stripe_customer_id (grant b tier credits u) = User.stripe_customer_id u.
Proof. done. Qed.

Lemma has_customer_grant c b tier credits u :
  has_customer c (grant b tier credits u) = has_customer c u.
Proof. done. Qed.

(** Granting to the account bound to [c] a second time changes nothing. *)
Lemma grant_update_idem c b tier credits us :
  update_first (has_customer c) (grant b tier credits)
    (update_first (has_customer c) (grant b tier credits) us)
  = update_first (has_customer c) (grant b tier credits) us.
Proof.
  rewrite update_first_twice; [done|].
  intros r Hr. by rewrite has_customer_grant.
Qed.

Lemma first_customer_grant c b tier credits us :
  first (has_customer c) (update_first (has_customer c) (grant b tier credits) us)
  = grant b tier credits <$> first (has_customer c) us.
Proof. apply first_update_first. intros r Hr. by rewrite has_customer_grant. Qed.

Lemma checkout_completed_try_idem ev retrieved c db db1 :
  checkout_completed_try cfg ev retrieved c db = Some db1 ->
  checkout_completed_try cfg ev retrieved c db1 = Some db1.
Proof.
  unfold checkout_completed_try. intros H.
  destruct (ev_id ev); [|done]. destruct retrieved as [sess|]; [|done]. simpl in *.
  destruct (first_price_id (cs_line_items sess)) as [price_id|]; [|done]. simpl in *.
  destruct (first (has_customer c) (users db)) eqn:Hu.
  - destruct (PLAN_CREDITS !! tier_of_price cfg price_id) as [credits|]; [|done].
    simpl in *. injection H as <-. simpl.
    by rewrite first_customer_grant, Hu, grant_update_idem.
  - injection H as <-. by rewrite Hu.
Qed.

Lemma subscription_changed_idem ev db db1 :
  subscription_changed cfg ev db = Some db1 ->
  subscription_changed cfg ev db1 = Some db1.
Proof.
  unfold subscription_changed. intros H.
  destruct (truthy (ev_customer ev)); [|done].
  destruct (first_price_id (ev_items ev)) as [price_id|]; [|done]. simpl in *.
  set (c := default EmptyString (ev_customer ev)) in *.
  destruct (first (has_customer c) (users db)) eqn:Hu.
  - destruct (PLAN_CREDITS !! _) as [credits|]; [|done].
    simpl in *. injection H as <-. simpl.
    by rewrite first_customer_grant, Hu, grant_update_idem.
  - injection H as <-. by rewrite Hu.
Qed.

Lemma has_customer_bind c u : has_customer c (bind_customer c u) = true.
Proof. unfold has_customer. simpl. apply String.eqb_refl. Qed.

Lemma post_checkout_try_idem req db db1 :
  post_checkout_try cfg req db = Some db1 ->
  post_checkout_try cfg req db1 = Some db1.
Proof.
  unfold post_checkout_try. intros H.
  destruct (pc_retrieve req) as [sess|]; [|done]. simpl in *.
  destruct (truthy (cs_customer sess)); [|done].
  destruct (cs_customer sess) as [c|]; [|done]. simpl in *.
  destruct (first_price_id (cs_line_items sess)) as [price_id|]; [|done]. simpl in *.
  destruct (first (has_customer c) (users db)) eqn:Hu.
  - destruct (PLAN_CREDITS !! tier_of_price cfg price_id) as [credits|]; [|done].
    simpl in *. injection H as <-. simpl.
    by rewrite first_customer_grant, Hu, grant_update_idem.
  - destruct (load_user (pc_session req) db) as [cu|] eqn:Hcu.
    + destruct (PLAN_CREDITS !! tier_of_price cfg price_id) as [credits|]; [|done].
      simpl in *. injection H as <-. simpl.
      unfold load_user in Hcu. destruct (pc_session req) as [i|]; [|done]. simpl in Hcu.
      pose proof (first_Some_true _ _ _ Hcu) as Hid. apply Z.eqb_eq in Hid.
      rewrite Hid in *.
      assert (forall r, has_customer c (grant true (tier_of_price cfg price_id) credits
                                          (bind_customer c r)) = true) as Hbound.
      { intros r. rewrite has_customer_grant. apply has_customer_bind. }
      rewrite (first_update_first_new _ _ _ _ cu Hu Hcu (Hbound cu)).
      simpl. rewrite update_first_new; [done|done|]. intros r _. apply Hbound.
    + injection H as <-. by rewrite Hu, Hcu.
Qed.

Lemma stripe_webhook_idem req db :
  db_after (stripe_webhook cfg req (db_after (stripe_webhook cfg req db)))
  = db_after (stripe_webhook cfg req db).
Proof.
  unfold stripe_webhook. destruct (wh_event req) as [ev|]; [|done].
  destruct (String.eqb (ev_type ev) "checkout.session.completed") eqn:Htype.
  - apply String.eqb_eq in Htype. rewrite Htype. simpl.
    unfold checkout_completed. destruct (truthy (ev_customer ev)); [|done].
    destruct (checkout_completed_try _ _ _ _ db) as [db1|] eqn:E; simpl.
    + by rewrite (checkout_completed_try_idem _ _ _ _ _ E).
    + by rewrite E.
  - simpl. destruct (_ || _); [|done].
    destruct (subscription_changed cfg ev db) as [db2|] eqn:E; simpl.
    + by rewrite (subscription_changed_idem _ _ _ E).
    + by rewrite E.
Qed.

Lemma post_checkout_idem req db :
  db_after (post_checkout cfg req (db_after (post_checkout cfg req db)))
  = db_after (post_checkout cfg req db).
Proof.
  unfold post_checkout. destruct (truthy (pc_session_id req)); [|done].
  destruct (post_checkout_try cfg req db) as [db1|] eqn:E; simpl.
  - by rewrite (post_checkout_try_idem _ _ _ E).
  - by rewrite E.
Qed.

Lemma truthy_Some c : c <> EmptyString -> negb (String.eqb c EmptyString) = true.
Proof. intros H. apply negb_true_iff. by apply String.eqb_neq. Qed.

Lemma update_first_const {A} (p : A -> bool) (f : A -> A) rows r :
  first p rows = Some r -> update_first p f rows = update_first p (fun _ => f r) rows.
Proof. intros H. apply update_first_ext. intros r1. rewrite H. by intros [= <-]. Qed.

(** The checkout branch of the webhook, for a bound customer. *)
Lemma checkout_completed_grants req db ev sid sess c price_id u :
  wh_event req = Some ev ->
  ev_type ev = "checkout.session.completed" ->
  ev_id ev = Some sid ->
  ev_customer ev = Some c -> c <> EmptyString ->
  wh_retrieve req = Some sess ->
  first_price_id (cs_line_items sess) = Some price_id ->
  first (has_customer c) (users db) = Some u ->
  exists credits,
    PLAN_CREDITS !! tier_of_price cfg price_id = Some credits
    /\ stripe_webhook cfg req db
       = mkOutcome (Json true 200)
           (set_users (update_first (has_customer c)
                         (fun _ => grant true (tier_of_price cfg price_id) credits u)
                         (users db)) db)
           [SessionRetrieve sid].
Proof.
  intros Hev Htype Hid Hc Hne%truthy_Some Hr Hprice Hu.
  destruct (tier_of_price_credits cfg price_id) as [credits Hcredits].
  exists credits. split; [done|].
  unfold stripe_webhook. rewrite Hev, Htype. simpl.
  unfold checkout_completed, checkout_completed_try. rewrite Hc, Hid, Hr. simpl.
  rewrite Hne, Hprice. simpl. rewrite Hu, Hcredits. simpl.
  by rewrite (update_first_const _ (grant true (tier_of_price cfg price_id) credits) _ u Hu).
Qed.

(** The subscription branch of the webhook, for a bound customer. *)
Lemma subscription_changed_grants req db ev c price_id u :
  wh_event req = Some ev ->
  subscription_event ev ->
  ev_customer ev = Some c -> c <> EmptyString ->
  first_price_id (ev_items ev) = Some price_id ->
  first (has_customer c) (users db) = Some u ->
  exists credits,
    PLAN_CREDITS !! tier_of_price cfg price_id = Some credits
    /\ stripe_webhook cfg req db
       = mkOutcome (Json true 200)
           (set_users (update_first (has_customer c)
                         (fun _ => if is_active (ev_status ev)
                                   then grant true (tier_of_price cfg price_id) credits u
                                   else grant false "free" 10000 u)
                         (users db)) db)
           [].
Proof.
  intros Hev Htype Hc Hne%truthy_Some Hprice Hu.
  destruct (tier_of_price_credits cfg price_id) as [credits Hcredits].
  exists credits. split; [done|].
  assert (String.eqb (ev_type ev) "checkout.session.completed" = false) as Hnot.
  { apply String.eqb_neq. destruct Htype as [-> | ->]; done. }
  assert (String.eqb (ev_type ev) "customer.subscription.updated"
          || String.eqb (ev_type ev) "customer.subscription.deleted" = true) as Hsub.
  { destruct Htype as [-> | ->]; done. }
  unfold stripe_webhook. rewrite Hev, Hnot, Hsub.
  unfold subscription_changed. rewrite Hc. simpl. rewrite Hne, Hprice. simpl. rewrite Hu.
  destruct (is_active (ev_status ev)).
  - rewrite Hcredits. simpl.
    by rewrite (update_first_const _ (grant true (tier_of_price cfg price_id) credits) _ u Hu).
  - assert (PLAN_CREDITS !! "free" = Some 10000) as -> by done. simpl.
    by rewrite (update_first_const _ (grant false "free" 10000) _ u Hu).
Qed.

(** The confirmation, for a bound customer and for an unbound one. *)
Lemma post_checkout_grants req db sid sess c price_id :
  pc_session_id req = Some sid -> sid <> EmptyString ->
  pc_retrieve req = Some sess ->
  cs_customer sess = Some c -> c <> EmptyString ->
  first_price_id (cs_line_items sess) = Some price_id ->
  exists credits,
    PLAN_CREDITS !! tier_of_price cfg price_id = Some credits
    /\ (forall u, first (has_customer c) (users db) = Some u ->
        post_checkout cfg req db
        = mkOutcome (Redirect "index?upgraded=1")
            (set_users (update_first (has_customer c)
                          (fun _ => grant true (tier_of_price cfg price_id) credits u)
                          (users db)) db)
            [SessionRetrieve sid])
    /\ (forall u, first (has_customer c) (users db) = None ->
        load_user (pc_session req) db = Some u ->
        post_checkout cfg req db
        = mkOutcome (Redirect "index?upgraded=1")
            (set_users (update_first (has_id (User.id u))
                          (fun _ => grant true (tier_of_price cfg price_id) credits
                                      (bind_customer c u))
                          (users db)) db)
            [SessionRetrieve sid])
    /\ (first (has_customer c) (users db) = None ->
        load_user (pc_session req) db = None ->
        post_checkout cfg req db
        = mkOutcome (Redirect "index?upgraded=1") db [SessionRetrieve sid]).
Proof.
  intros Hsid Hsne%truthy_Some Hr Hc Hne%truthy_Some Hprice.
  destruct (tier_of_price_credits cfg price_id) as [credits Hcredits].
  exists credits. split; [done|].
  unfold post_checkout, post_checkout_try. rewrite Hsid, Hr. simpl.
  rewrite Hsne, Hc. simpl. rewrite Hne, Hprice. simpl.
  split_and!.
  - intros u Hu. rewrite Hu, Hcredits. simpl.
    by rewrite (update_first_const _ (grant true (tier_of_price cfg price_id) credits) _ u Hu).
  - intros u Hnone Hu. rewrite Hnone, Hu, Hcredits. simpl.
    unfold load_user in Hu. destruct (pc_session req) as [i|]; [|done]. simpl in Hu.
    pose proof (first_Some_true _ _ _ Hu) as Hid. apply Z.eqb_eq in Hid. rewrite Hid in *.
    by rewrite (update_first_const _
                  (fun r => grant true (tier_of_price cfg price_id) credits (bind_customer c r))
                  _ u Hu).
  - intros Hnone Hu. by rewrite Hnone, Hu.
Qed.

(** C2: serving the same subscription event a second time, through the
    webhook or through the checkout confirmation, leaves the database as the
    first time left it.  What the first time leaves is an overwrite: the
    account bound to the event's customer keeps its id, email, count and
    customer id and gets the subscription flag, the plan, and as balance and
    as cap alike the catalog's value for that plan, whatever balance it had;
    no other row and no other table changes.  This holds of the checkout
    event, of the subscription events (an inactive status overwrites with
    the free tier's 10000) and of the confirmation, which for a customer
    bound to no account writes the same to the signed-in account together
    with the customer id.  The catalog is that of lines 71 to 77. *)
Theorem subscription_event_idempotent :
  (forall req db,
     db_after (stripe_webhook cfg req (db_after (stripe_webhook cfg req db)))
     = db_after (stripe_webhook cfg req db))
  /\ (forall req db,
        db_after (post_checkout cfg req (db_after (post_checkout cfg req db)))
        = db_after (post_checkout cfg req db))
  /\ (forall b tier credits u,
        grant b tier credits u
        = User.mk (User.id u) (User.email u) (User.generation_count u) b
            (User.stripe_customer_id u) (Some tier) credits credits)
  /\ (PLAN_CREDITS !! "free" = Some 10000 /\ PLAN_CREDITS !! "starter" = Some 120000
      /\ PLAN_CREDITS !! "creator" = Some 300000 /\ PLAN_CREDITS !! "enterprise" = Some 800000
      /\ PLAN_CREDITS !! "legacy_pro" = Some 200000)
  /\ (forall req db ev sid sess c price_id u,
        wh_event req = Some ev ->
        ev_type ev = "checkout.session.completed" ->
        ev_id ev = Some sid ->
        ev_customer ev = Some c -> c <> EmptyString ->
        wh_retrieve req = Some sess ->
        first_price_id (cs_line_items sess) = Some price_id ->
        first (has_customer c) (users db) = Some u ->
        exists credits,
          PLAN_CREDITS !! tier_of_price cfg price_id = Some credits
          /\ db_after (stripe_webhook cfg req db)
             = mkDB (update_first (has_customer c)
                       (fun _ => User.mk (User.id u) (User.email u) (User.generation_count u)
                                   true (User.stripe_customer_id u)
                                   (Some (tier_of_price cfg price_id)) credits credits)
                       (users db))
                  (generations db) (tokens db))
  /\ (forall req db ev c price_id u,
        wh_event req = Some ev ->
        subscription_event ev ->
        ev_customer ev = Some c -> c <> EmptyString ->
        first_price_id (ev_items ev) = Some price_id ->
        first (has_customer c) (users db) = Some u ->
        exists credits,
          PLAN_CREDITS !! tier_of_price cfg price_id = Some credits
          /\ db_after (stripe_webhook cfg req db)
             = mkDB (update_first (has_customer c)
                       (fun _ =>
                          if is_active (ev_status ev)
                          then User.mk (User.id u) (User.email u) (User.generation_count u)
                                 true (User.stripe_customer_id u)
                                 (Some (tier_of_price cfg price_id)) credits credits
                          else User.mk (User.id u) (User.email u) (User.generation_count u)
                                 false (User.stripe_customer_id u) (Some "free") 10000 10000)
                       (users db))
                  (generations db) (tokens db))
  /\ (forall req db sid sess c price_id,
        pc_session_id req = Some sid -> sid <> EmptyString ->
        pc_retrieve req = Some sess ->
        cs_customer sess = Some c -> c <> EmptyString ->
        first_price_id (cs_line_items sess) = Some price_id ->
        exists credits,
          PLAN_CREDITS !! tier_of_price cfg price_id = Some credits
          /\ (forall u, first (has_customer c) (users db) = Some u ->
              db_after (post_checkout cfg req db)
              = mkDB (update_first (has_customer c)
                        (fun _ => User.mk (User.id u) (User.email u) (User.generation_count u)
                                    true (User.stripe_customer_id u)
                                    (Some (tier_of_price cfg price_id)) credits credits)
                        (users db))
                   (generations db) (tokens db))
          /\ (forall u, first (has_customer c) (users db) = None ->
              load_user (pc_session req) db = Some u ->
              db_after (post_checkout cfg req db)
              = mkDB (update_first (has_id (User.id u))
                        (fun _ => User.mk (User.id u) (User.email u) (User.generation_count u)
                                    true (Some c)
                                    (Some (tier_of_price cfg price_id)) credits credits)
                        (users db))
                   (generations db) (tokens db))).
Proof.
  refine (conj _ (conj _ (conj _ (conj _ (conj _ (conj _ _)))))).
  - apply stripe_webhook_idem.
  - apply post_checkout_idem.
  - done.
  - by split_and!.
  - intros req db ev sid sess c price_id u Hev Htype Hid Hc Hne Hr Hprice Hu.
    destruct (checkout_completed_grants req db ev sid sess c price_id u)
      as (credits & Hcredits & ->); try done.
    by exists credits.
  - intros req db ev c price_id u Hev Htype Hc Hne Hprice Hu.
    destruct (subscription_changed_grants req db ev c price_id u)
      as (credits & Hcredits & ->); try done.
    exists credits. split; [done|]. simpl. unfold set_users. simpl. f_equal.
  - intros req db sid sess c price_id Hsid Hsne Hr Hc Hne Hprice.
    destruct (post_checkout_grants req db sid sess c price_id)
      as (credits & Hcredits & Hbound & Hunbound & _); try done.
    exists credits. split_and!; [done| |].
    + intros u Hu. by rewrite (Hbound u Hu).
    + intros u Hnone Hu. by rewrite (Hunbound u Hnone Hu).
Qed.

(** The [try] of the checkout branch fails exactly on an event without id,
    on a failed retrieve, or on a first line item without price id. *)
Lemma checkout_completed_try_None ev retrieved c db :
  checkout_completed_try cfg ev retrieved c db = None <->
  ev_id ev = None \/ retrieved = None
  \/ exists sess, retrieved = Some sess /\ first_price_id (cs_line_items sess) = None.
Proof.
  unfold checkout_completed_try.
  destruct (ev_id ev); simpl; [|split; auto].
  destruct retrieved as [sess|]; simpl; [|split; auto].
  destruct (first_price_id (cs_line_items sess)) as [price_id|] eqn:E; simpl.
  - destruct (tier_of_price_credits cfg price_id) as [credits Hc]. rewrite Hc.
    split; [by destruct (first _ _)|].
    intros [?|[?|(sess' & [= <-] & ?)]]; congruence.
  - split; [|done]. intros _. do 2 right. by exists sess.
Qed.

(** C9: when the event is a verified [checkout.session.completed] and the
    tier update raises (the event has no id, the session cannot be
    retrieved, or its first line item has no price id), the webhook still
    answers 200 with [success], the database is untouched, and the error is
    only printed. *)
Theorem webhook_swallows_checkout_error req db ev :
  wh_event req = Some ev ->
  ev_type ev = "checkout.session.completed" ->
  (ev_id ev = None \/ wh_retrieve req = None
   \/ exists sess, wh_retrieve req = Some sess /\ first_price_id (cs_line_items sess) = None) ->
  response (stripe_webhook cfg req db) = Json true 200
  /\ db_after (stripe_webhook cfg req db) = db
  /\ (truthy (ev_customer ev) = true ->
      Print "Error processing checkout.session.completed" ∈ effects (stripe_webhook cfg req db)).
Proof.
  intros Hev Htype Hraise. unfold stripe_webhook. rewrite Hev, Htype. simpl.
  unfold checkout_completed. destruct (truthy (ev_customer ev)); simpl; [|done].
  apply (checkout_completed_try_None ev (wh_retrieve req)
           (default EmptyString (ev_customer ev)) db) in Hraise.
  rewrite Hraise. simpl. split_and!; [done|done|].
  intros _. apply elem_of_app. right. by apply list_elem_of_singleton.
Qed.

(** [ensure_stripe_customer] keeps a customer id that is set. *)
Lemma ensure_stripe_customer_keeps created u db :
  truthy (User.stripe_customer_id u) = true ->
  ensure_stripe_customer created u db = (User.stripe_customer_id u, db, []).
Proof. intros H. unfold ensure_stripe_customer. by rewrite H. Qed.

(** The webhook never writes a customer id. *)
Lemma stripe_webhook_keeps_customers req db :
  User.stripe_customer_id <$> users (db_after (stripe_webhook cfg req db))
  = User.stripe_customer_id <$> users db.
Proof.
  unfold stripe_webhook, checkout_completed, checkout_completed_try, subscription_changed.
  repeat (case_match || simplify_option_eq); simpl; try done;
    repeat (rewrite fmap_update_first; [|done]); done.
Qed.

(** Neither does the checkout confirmation, as long as the session's
    customer is bound to an account. *)
Lemma post_checkout_keeps_bound req db sess c u :
  pc_retrieve req = Some sess -> cs_customer sess = Some c ->
  first (has_customer c) (users db) = Some u ->
  User.stripe_customer_id <$> users (db_after (post_checkout cfg req db))
  = User.stripe_customer_id <$> users db.
Proof.
  intros Hs Hc Hu. unfold post_checkout, post_checkout_try. rewrite Hs. simpl. rewrite Hc.
  repeat (case_match || simplify_option_eq); simpl; try done.
  all: by rewrite fmap_update_first.
Qed.

End Reconciliation.

(** ** The customer binding of the checkout confirmation *)

(** C3: the confirmation of a checkout session whose customer, [cus_B], is
    bound to no account rebinds the signed-in account, which was bound to
    [cus_A]: a customer id that was set is overwritten with another one. *)
Example post_checkout_rebinds_customer :
  User.stripe_customer_id <$> users Sample.bound_db = [Some "cus_A"]
  /\ User.stripe_customer_id
       <$> users (db_after (post_checkout default_config Sample.foreign_checkout Sample.bound_db))
     = [Some "cus_B"].
Proof. split; vm_compute; reflexivity. Qed.

(** ** The resize step *)

(** Each new edge is a nearest integer to the edge scaled by
    [1024 / longest], and at least one pixel. *)
Lemma resize_dims_edges w h :
  0 < w < 2 ^ 40 -> 0 < h < 2 ^ 40 ->
  exists rw rh,
    resize_dims w h = (Z.max 1 rw, Z.max 1 rh)
    /\ 2 * Z.abs (rw * Z.max w h - 1024 * w) <= Z.max w h
    /\ 2 * Z.abs (rh * Z.max w h - 1024 * h) <= Z.max w h.
Proof.
  intros Hw Hh. unfold resize_dims. eexists _, _. split; [reflexivity|].
  split; apply scaled_edge_near; lia.
Qed.

(** C4, as the code has it: for a picture of positive size (below [2^40]
    pixels a side) both new edges are positive integers, each is the old
    edge scaled by [1024 / longest] and rounded to a nearest integer (one
    pixel at least), and the longest new edge is exactly 1024, whether the
    picture was larger or smaller than that: a small picture is enlarged. *)
Theorem resize_dims_longest_edge w h :
  0 < w < 2 ^ 40 -> 0 < h < 2 ^ 40 ->
  0 < (resize_dims w h).1
  /\ 0 < (resize_dims w h).2
  /\ Z.max (resize_dims w h).1 (resize_dims w h).2 = 1024
  /\ exists rw rh,
       resize_dims w h = (Z.max 1 rw, Z.max 1 rh)
       /\ 2 * Z.abs (rw * Z.max w h - 1024 * w) <= Z.max w h
       /\ 2 * Z.abs (rh * Z.max w h - 1024 * h) <= Z.max w h.
Proof.
  intros Hw Hh.
  destruct (resize_dims_edges w h Hw Hh) as (rw & rh & -> & Hrw & Hrh).
  cbn [fst snd]. split_and!; [lia|lia| |eauto].
  assert (w <= Z.max w h /\ h <= Z.max w h /\ (Z.max w h = w \/ Z.max w h = h))
    as (Hwl & Hhl & Hmax) by lia.
  set (L := Z.max w h) in *. clearbody L.
  assert (rw <= 1024) by nia. assert (rh <= 1024) by nia.
  destruct Hmax as [-> | ->].
  - assert (rw = 1024) by nia. lia.
  - assert (rh = 1024) by nia. lia.
Qed.

(** C4, as the claim has it, fails on a picture of 100 by 50: its longest
    edge is below 1024, and it is not left at its size but enlarged to 1024
    by 512. *)
Lemma resize_dims_enlarges_small_picture :
  Z.max 100 50 < 1024
  /\ resize_dims 100 50 = (1024, 512)
  /\ resize_dims 100 50 <> (100, 50).
Proof. split_and!; [lia|by vm_compute|by vm_compute]. Qed.

(** The aspect ratio is kept up to the rounding of each edge: 3 by 2 becomes
    1024 by 683, and a strip of 2048 by 1 keeps one pixel of height. *)
Example resize_dims_rounds_edges :
  resize_dims 3 2 = (1024, 683) /\ resize_dims 2048 1 = (1024, 1).
Proof. split; by vm_compute. Qed.

(** On the sample sizes the model computes what the kernel's binary64
    arithmetic computes. *)
Example resize_dims_agrees_with_hardware :
  forallb agree (sizes_upto 40 ++ sample_sizes) = true.
Proof. vm_compute. reflexivity. Qed.

(** ** The theorems at the sample data *)

Lemma credits_never_negative_witness :
  credits_nonneg Sample.fresh_db
  /\ credits_nonneg
       (run default_config Sample.secure_filename Sample.splitext_base Sample.image_size
          [Transform Sample.good_request; StripeWebhook Sample.failing_webhook;
           Transform Sample.good_request] Sample.fresh_db).
Proof.
  assert (credits_nonneg Sample.fresh_db) as H.
  { unfold credits_nonneg. simpl. repeat constructor. simpl. lia. }
  split; [exact H|].
  apply (credits_never_negative default_config Sample.secure_filename Sample.splitext_base
           Sample.image_size _ Sample.fresh_db H).
Defined.

Lemma resize_dims_longest_edge_witness :
  0 < 4000 < 2 ^ 40 /\ 0 < 3000 < 2 ^ 40
  /\ 0 < (resize_dims 4000 3000).1
  /\ 0 < (resize_dims 4000 3000).2
  /\ Z.max (resize_dims 4000 3000).1 (resize_dims 4000 3000).2 = 1024.
Proof.
  assert (0 < 4000 < 2 ^ 40) as Hw by lia.
  assert (0 < 3000 < 2 ^ 40) as Hh by lia.
  destruct (resize_dims_longest_edge 4000 3000 Hw Hh) as (H1 & H2 & H3 & _).
  split_and!; assumption.
Defined.

Lemma subscription_event_idempotent_witness :
  users (db_after (stripe_webhook default_config Fixture.webhook_A Sample.bound_db))
  = [User.mk 1 "ann@example.com" (Some 0) true (Some "cus_A") (Some "starter") 120000 120000]
  /\ users (db_after (stripe_webhook default_config Fixture.cancel_webhook Sample.bound_db))
     = [User.mk 1 "ann@example.com" (Some 0) false (Some "cus_A") (Some "free") 10000 10000].
Proof.
  destruct (subscription_event_idempotent default_config)
    as (_ & _ & _ & _ & Hcheckout & Hsubscription & _).
  destruct (Hcheckout Fixture.webhook_A Sample.bound_db Fixture.completed_A "cs_test_1"
              Fixture.session_A "cus_A" (Some "price_starter_monthly") Fixture.ann_bound
              eq_refl eq_refl eq_refl eq_refl ltac:(discriminate) eq_refl eq_refl eq_refl)
    as (credits & Hcredits & ->).
  destruct (Hsubscription Fixture.cancel_webhook Sample.bound_db Fixture.cancelled_A "cus_A"
              (Some "price_creator_monthly") Fixture.ann_bound
              eq_refl (or_intror eq_refl) eq_refl ltac:(discriminate) eq_refl eq_refl)
    as (credits' & _ & ->).
  vm_compute in Hcredits. injection Hcredits as <-.
  split; reflexivity.
Defined.

Lemma transform_generation_failed_witness :
  usable_answer Sample.image_size (tr_answer Sample.empty_answer_request) = false
  /\ db_after (transform Sample.secure_filename Sample.splitext_base Sample.image_size
                 Sample.empty_answer_request Sample.fresh_db)
     = Sample.fresh_db
  /\ effects (transform Sample.secure_filename Sample.splitext_base Sample.image_size
                Sample.empty_answer_request Sample.fresh_db)
     = [SaveFile "static/uploads/20250101_120000_room.jpg"; GenerateContent 1024 768;
        FlashError NoImageGenerated]
  /\ response (transform Sample.secure_filename Sample.splitext_base Sample.image_size
                 Sample.empty_answer_request Sample.fresh_db)
     = RenderIndex (Some NoImageGenerated)
         (Some "/static/uploads/20250101_120000_room.jpg") None.
Proof.
  assert (usable_answer Sample.image_size (tr_answer Sample.empty_answer_request) = false)
    as H by reflexivity.
  destruct (transform_generation_failed Sample.secure_filename Sample.splitext_base
              Sample.image_size Sample.empty_answer_request Sample.fresh_db H) as [Hdb Hcall].
  destruct (Hcall (User.mk 1 "ann@example.com" (Some 0) false None (Some "free") 10000 10000)
              Sample.photo 800 600 eq_refl ltac:(vm_compute; discriminate) eq_refl eq_refl
              eq_refl) as (e & _ & Heff & Hpage & _).
  assert (e = NoImageGenerated) as ->.
  { vm_compute in Heff. by injection Heff as <-. }
  split; [exact H|split; [exact Hdb|split; [exact Heff|]]].
  apply Hpage. by eexists.
Defined.

Lemma transform_insufficient_credits_witness :
  exists u,
    load_user (tr_session Sample.good_request) Sample.fresh_db = Some u
    /\ (response (transform Sample.secure_filename Sample.splitext_base Sample.image_size
                    Sample.good_request Sample.fresh_db) = Redirect "upgrade"
        <-> User.credits_remaining u < 500).
Proof.
  eexists. split; [reflexivity|].
  apply (transform_insufficient_credits Sample.secure_filename Sample.splitext_base
           Sample.image_size Sample.good_request Sample.fresh_db _ eq_refl).
Defined.

Lemma twenty_generations_exhaust_witness :
  exists u20,
    first (has_id 1)
      (users (run default_config Sample.secure_filename Sample.splitext_base Sample.image_size
                (Transform <$> Sample.twenty_requests) Sample.fresh_db)) = Some u20
    /\ User.credits_remaining u20 = 0.
Proof.
  destruct (twenty_generations_exhaust default_config Sample.secure_filename
              Sample.splitext_base Sample.image_size Sample.twenty_requests Sample.fresh_db 1
              (User.mk 1 "ann@example.com" (Some 0) false None (Some "free") 10000 10000))
    as (u20 & H1 & H2 & _).
  - reflexivity.
  - reflexivity.
  - reflexivity.
  - unfold Sample.twenty_requests. apply Forall_replicate. reflexivity.
  - exists u20. split; assumption.
Defined.

Lemma deposit_exactly_once_witness :
  response (mobile_upload_post Sample.secure_filename Sample.photo_deposit Sample.token_db)
  = RenderMobileUpload true
  /\ effects (mobile_upload_post Sample.secure_filename Sample.photo_deposit Sample.token_db)
     = [SaveFile "static/uploads/mobile_tok_1_room.jpg"]
  /\ first (has_token "tok_1")
       (tokens (db_after (mobile_upload_post Sample.secure_filename Sample.photo_deposit
                            Sample.token_db)))
     = Some (MobileUploadToken.mk 1 "tok_1" true
               (Some "/static/uploads/mobile_tok_1_room.jpg") None).
Proof.
  destruct (deposit_exactly_once default_config Sample.secure_filename Sample.splitext_base
              Sample.image_size Sample.photo_deposit Sample.token_db) as [_ H].
  destruct (H (MobileUploadToken.mk 1 "tok_1" false None None) Sample.photo
              eq_refl eq_refl eq_refl) as (Hr & Heff & _ & Hrow & _).
  split; [exact Hr|split; [exact Heff|exact Hrow]].
Defined.

Lemma deposit_without_file_witness :
  response (mobile_upload_post Sample.secure_filename Sample.empty_deposit Sample.token_db)
  = RenderMobileUpload false
  /\ db_after (mobile_upload_post Sample.secure_filename Sample.empty_deposit Sample.token_db)
     = Sample.token_db.
Proof.
  destruct (deposit_without_file Sample.secure_filename Sample.empty_deposit Sample.token_db
              (MobileUploadToken.mk 1 "tok_1" false None None) eq_refl eq_refl
              (or_introl eq_refl)) as (H1 & H2 & _).
  split; assumption.
Defined.

Lemma webhook_swallows_checkout_error_witness :
  response (stripe_webhook default_config Sample.failing_webhook Sample.bound_db) = Json true 200
  /\ db_after (stripe_webhook default_config Sample.failing_webhook Sample.bound_db)
     = Sample.bound_db.
Proof.
  destruct (webhook_swallows_checkout_error default_config Sample.failing_webhook
              Sample.bound_db
              (mkEvent "checkout.session.completed" (Some "cs_test_1") (Some "cus_A") None None)
              eq_refl eq_refl (or_intror (or_introl eq_refl))) as (H1 & H2 & _).
  split; assumption.
Defined.

(** * Further properties *)

(** ** One request, one step *)
Section Steps.

Variable cfg : Config.
Variable secure_filename : string -> string.
Variable splitext_base : string -> string.
Variable image_size : string -> option (Z * Z).

Local Abbreviation handle := (handle cfg secure_filename splitext_base image_size).
Local Abbreviation run := (run cfg secure_filename splitext_base image_size).

Lemma ensure_stripe_customer_step created u db :
  db_step db (ensure_stripe_customer created u db).1.2.
Proof.
  unfold ensure_stripe_customer. destruct (truthy _); [constructor|].
  destruct created; simpl; repeat constructor.
Qed.

Lemma start_session_step req u db : db_step db (db_after (start_session req u db)).
Proof.
  unfold start_session.
  pose proof (ensure_stripe_customer_step (ug_customer req) u db) as H.
  destruct (ensure_stripe_customer _ _ _) as [[[c|] db1] eff]; simpl in *; [|done].
  by destruct (ug_url req).
Qed.

Lemma post_checkout_try_step req db db1 :
  post_checkout_try cfg req db = Some db1 -> db_step db db1.
Proof.
  unfold post_checkout_try. intros H.
  repeat (case_match || simplify_option_eq); repeat (constructor; try done).
Qed.

Lemma checkout_completed_try_step ev retrieved c db db1 :
  checkout_completed_try cfg ev retrieved c db = Some db1 -> db_step db db1.
Proof.
  unfold checkout_completed_try. intros H.
  repeat (case_match || simplify_option_eq); repeat (constructor; try done).
Qed.

Lemma subscription_changed_step ev db db1 :
  subscription_changed cfg ev db = Some db1 -> db_step db db1.
Proof.
  unfold subscription_changed. intros H.
  repeat (case_match || simplify_option_eq); repeat (constructor; try done).
Qed.

Lemma stripe_webhook_step req db : db_step db (db_after (stripe_webhook cfg req db)).
Proof.
  unfold stripe_webhook. destruct (wh_event req) as [ev|]; [|constructor].
  destruct (String.eqb (ev_type ev) "checkout.session.completed") eqn:Htype.
  - apply String.eqb_eq in Htype. rewrite Htype. simpl.
    unfold checkout_completed. destruct (truthy _); [|constructor].
    destruct (checkout_completed_try _ _ _ _ _) eqn:E; [|constructor].
    simpl. by eapply checkout_completed_try_step.
  - simpl. destruct (_ || _); [|constructor].
    destruct (subscription_changed cfg ev db) eqn:E; [|constructor].
    simpl. by eapply subscription_changed_step.
Qed.

Lemma load_user_first session db u :
  load_user session db = Some u -> first (has_id (User.id u)) (users db) = Some u.
Proof.
  unfold load_user. destruct session as [i|]; [|done]. simpl. intros H.
  pose proof (first_Some_true _ _ _ H) as Hid. apply Z.eqb_eq in Hid. by rewrite Hid.
Qed.

Lemma transform_step req db :
  db_step db (db_after (transform secure_filename splitext_base image_size req db)).
Proof.
  unfold transform.
  destruct (load_user _ _) as [u|] eqn:Hu; [|constructor].
  destruct (Z.ltb_spec (User.credits_remaining u) CREDITS_PER_IMAGE); [constructor|].
  destruct (file_given _) as [f|]; [|constructor].
  destruct (transform_try_cases secure_filename splitext_base image_size req u f db)
    as [(? & ? & _ & -> & _)|(? & ? & _ & -> & _)]; [constructor|].
  apply step_generation; [exact (load_user_first _ _ _ Hu)|done].
Qed.

(** Every route makes at most one of the writes of [db_step]. *)
Lemma handle_step r db : db_step db (db_after (handle r db)).
Proof.
  destruct r; simpl.
  - unfold signup. destruct (first _ _) eqn:E; [constructor|].
    destruct (PLAN_CREDITS !! "free") eqn:Hc; [|constructor].
    simpl. by apply step_signup.
  - unfold upgrade. destruct (load_user _ _); [|constructor].
    destruct (User.is_subscribed _); [constructor|].
    destruct (_ && _); [|constructor]. apply start_session_step.
  - unfold billing_portal. destruct (load_user _ _); [|constructor].
    apply start_session_step.
  - unfold post_checkout. destruct (truthy _); [|constructor].
    destruct (post_checkout_try _ _ _) eqn:E; [|constructor].
    simpl. by eapply post_checkout_try_step.
  - apply stripe_webhook_step.
  - apply transform_step.
  - unfold mobile_start. destruct (first _ _) eqn:E; [constructor|].
    simpl. by apply step_token.
  - unfold mobile_upload_post. destruct (first _ _) as [t|] eqn:Ht; [|constructor].
    destruct (MobileUploadToken.used t) eqn:Hu; [constructor|].
    destruct (file_given _); [|constructor]. simpl. by eapply step_deposit.
Qed.

(** A property of databases that every step keeps is kept by every sequence
    of requests. *)
Lemma run_invariant (I : DB -> Prop) :
  (forall db db1, I db -> db_step db db1 -> I db1) ->
  forall rs db, I db -> I (run rs db).
Proof.
  intros Hstep rs. induction rs as [|r rs IH]; intros db H; [done|].
  rewrite run_cons. apply IH. eapply Hstep; [done|]. apply handle_step.
Qed.

End Steps.

(** ** Invariants of the tables *)
Section Invariants.

Variable cfg : Config.
Variable secure_filename : string -> string.
Variable splitext_base : string -> string.
Variable image_size : string -> option (Z * Z).

Local Abbreviation run := (run cfg secure_filename splitext_base image_size).

(** A property of account rows kept by the three writes, by [debit] and by
    the row that [signup] inserts holds of every account after a step. *)
Lemma db_step_users_Forall (P : User.t -> Prop) db db1 :
  (forall f u, row_write f -> P u -> P (f u)) ->
  (forall u, P u -> P (debit u)) ->
  (forall d email credits, PLAN_CREDITS !! "free" = Some credits -> P (new_user d email credits)) ->
  db_step db db1 -> Forall P (users db) -> Forall P (users db1).
Proof.
  intros Hw Hd Hn Hstep H. destruct Hstep; simpl; try done.
  - apply update_first_Forall; [|done]. intros r. by apply Hw.
  - apply Forall_app. split; [done|]. constructor; [|done]. by apply Hn.
  - by apply update_first_Forall.
Qed.

Lemma row_write_entitlement f u :
  row_write f -> within_cap u -> within_cap (f u).
Proof.
  unfold within_cap. intros [c|b tier credits Hc|c tier credits Hc] H; simpl; [done| |];
    apply PLAN_CREDITS_pos in Hc; lia.
Qed.

(** X1: the balance of an account never exceeds its cap: from a database
    where every balance lies between zero and the cap, every sequence of
    requests leads to one where it still does. *)
Theorem balance_within_cap rs db :
  Forall within_cap (users db) -> Forall within_cap (users (run rs db)).
Proof.
  apply (run_invariant cfg secure_filename splitext_base image_size
           (fun d => Forall within_cap (users d))).
  intros d d1 H Hstep. revert H. apply db_step_users_Forall; [| | |done].
  - apply row_write_entitlement.
  - intros u. unfold within_cap. simpl. unfold CREDITS_PER_IMAGE. lia.
  - intros ? ? credits Hc%PLAN_CREDITS_pos. unfold within_cap. simpl. lia.
Qed.

Lemma generation_count_kept rs db :
  Forall (fun u => is_Some (User.generation_count u)) (users db) ->
  Forall (fun u => is_Some (User.generation_count u)) (users (run rs db)).
Proof.
  apply (run_invariant cfg secure_filename splitext_base image_size
           (fun d => Forall (fun u => is_Some (User.generation_count u)) (users d))).
  intros d d1 H Hstep. revert H. apply db_step_users_Forall; [| | |done].
  - by intros f u [].
  - intros u _. by eexists.
  - intros. by eexists.
Qed.

(** X2: [generation_count] is never NULL once it is set: from a database
    where every account has a count, after any requests [index] finds the
    count it converts with [int], so it renders the page for every visitor
    instead of raising. *)
Theorem index_never_raises rs db session upgraded :
  Forall (fun u => is_Some (User.generation_count u)) (users db) ->
  is_Some (index session upgraded (run rs db)).1.
Proof.
  intros H%(generation_count_kept rs). unfold index, page_context. simpl.
  destruct (load_user session (run rs db)) as [u|] eqn:Hu; [|by eexists].
  unfold load_user in Hu. destruct session as [i|]; [|done]. simpl in Hu.
  destruct (first_Some_Forall _ _ _ _ H Hu) as [n Hn]. rewrite Hn. by eexists.
Qed.

Lemma next_id_above ids i : i ∈ ids -> i < next_id ids.
Proof.
  unfold next_id. induction ids as [|j ids IH]; simpl.
  - by intros ?%elem_of_nil.
  - intros [->|H]%elem_of_cons; [lia|]. specialize (IH H). lia.
Qed.

Lemma next_id_fresh ids : next_id ids ∉ ids.
Proof. intros H%next_id_above. lia. Qed.

Lemma first_None_not_elem {A B} (g : A -> B) (p : A -> bool) b rows :
  (forall r, g r = b -> p r = true) ->
  first p rows = None -> b ∉ g <$> rows.
Proof.
  intros Hp. induction rows as [|r rest IH]; [by intros _ ?%elem_of_nil|].
  rewrite fmap_cons. simpl. destruct (p r) eqn:E; [done|]. intros H%IH.
  intros [Heq|Hin]%elem_of_cons; [|done]. symmetry in Heq. apply Hp in Heq. congruence.
Qed.

Lemma row_write_keys f u :
  row_write f -> User.id (f u) = User.id u /\ User.email (f u) = User.email u.
Proof. by intros []. Qed.

Lemma row_write_id f : row_write f -> forall u, User.id (f u) = User.id u.
Proof. intros H u. by apply row_write_keys. Qed.

Lemma row_write_email f : row_write f -> forall u, User.email (f u) = User.email u.
Proof. intros H u. by apply row_write_keys. Qed.

Lemma db_step_keys_unique db db1 : db_step db db1 -> keys_unique db -> keys_unique db1.
Proof.
  unfold keys_unique. intros Hstep (Hid & Hemail & Hgen & Htid & Htok).
  destruct Hstep; simpl.
  - done.
  - rewrite !fmap_update_first; [done|by apply row_write_email|by apply row_write_id].
  - rewrite !fmap_app. simpl. split_and!; try done.
    + apply NoDup_app. split_and!; [done| |apply NoDup_singleton].
      intros i Hi ->%list_elem_of_singleton. by apply next_id_fresh in Hi.
    + apply NoDup_app. split_and!; [done| |apply NoDup_singleton].
      intros e He ->%list_elem_of_singleton. revert He.
      apply (first_None_not_elem User.email (has_email email)); [|done].
      intros r <-. apply String.eqb_refl.
  - rewrite !fmap_update_first by done. rewrite fmap_app. simpl. split_and!; try done.
    apply NoDup_app. split_and!; [done| |apply NoDup_singleton].
    intros j Hj ->%list_elem_of_singleton. by apply next_id_fresh in Hj.
  - rewrite !fmap_app. simpl. split_and!; try done.
    + apply NoDup_app. split_and!; [done| |apply NoDup_singleton].
      intros j Hj ->%list_elem_of_singleton. by apply next_id_fresh in Hj.
    + apply NoDup_app. split_and!; [done| |apply NoDup_singleton].
      intros e He ->%list_elem_of_singleton. revert He.
      apply (first_None_not_elem MobileUploadToken.token (has_token fresh)); [|done].
      intros r <-. apply String.eqb_refl.
  - rewrite !fmap_update_first by done. done.
Qed.

(** X3: the keys stay unique: when the ids and emails of the accounts, the
    ids of the generations and the ids and values of the tokens are pairwise
    distinct, they still are after any sequence of requests. *)
Theorem keys_stay_unique rs db : keys_unique db -> keys_unique (run rs db).
Proof.
  apply (run_invariant cfg secure_filename splitext_base image_size keys_unique).
  intros d d1 H Hstep. by apply (db_step_keys_unique d d1).
Qed.

Lemma db_step_rows_kept db db1 :
  db_step db db1 ->
  generations db `prefix_of` generations db1
  /\ (User.id <$> users db) `prefix_of` (User.id <$> users db1)
  /\ (User.email <$> users db) `prefix_of` (User.email <$> users db1)
  /\ (MobileUploadToken.token <$> tokens db) `prefix_of` (MobileUploadToken.token <$> tokens db1).
Proof.
  intros Hstep. destruct Hstep; simpl.
  - done.
  - rewrite !fmap_update_first; [done|by apply row_write_email|by apply row_write_id].
  - rewrite !fmap_app. split_and!; try done; apply prefix_app_r; done.
  - rewrite !fmap_update_first by done. split_and!; try done. by apply prefix_app_r.
  - rewrite !fmap_app. split_and!; try done. by apply prefix_app_r.
  - rewrite !fmap_update_first by done. done.
Qed.

(** X4: nothing is deleted or re-keyed: after any sequence of requests the
    generation records of before are still there, unchanged and in place,
    followed by the new ones, and so are the ids and emails of the accounts
    and the values of the tokens. *)
Theorem rows_never_deleted rs db :
  generations db `prefix_of` generations (run rs db)
  /\ (User.id <$> users db) `prefix_of` (User.id <$> users (run rs db))
  /\ (User.email <$> users db) `prefix_of` (User.email <$> users (run rs db))
  /\ (MobileUploadToken.token <$> tokens db)
     `prefix_of` (MobileUploadToken.token <$> tokens (run rs db)).
Proof.
  apply (run_invariant cfg secure_filename splitext_base image_size
           (fun d => generations db `prefix_of` generations d
                     /\ (User.id <$> users db) `prefix_of` (User.id <$> users d)
                     /\ (User.email <$> users db) `prefix_of` (User.email <$> users d)
                     /\ (MobileUploadToken.token <$> tokens db)
                        `prefix_of` (MobileUploadToken.token <$> tokens d))); [|done].
  intros d d1 (H1 & H2 & H3 & H4) Hstep.
  destruct (db_step_rows_kept d d1 Hstep) as (K1 & K2 & K3 & K4).
  split_and!; etrans; done.
Qed.

End Invariants.

(** ** Looking at a generation *)
Section Gallery.

Variable secure_filename : string -> string.
Variable splitext_base : string -> string.
Variable image_size : string -> option (Z * Z).

Local Abbreviation transform := (transform secure_filename splitext_base image_size).

(** X5: [view_generation] never changes the database, and it shows a pair
    of pictures only when a generation with the id asked for belongs to the
    signed-in account and holds that pair. *)
Theorem view_generation_own_records session generation_id db :
  db_after (view_generation session generation_id db) = db
  /\ forall e i o,
       response (view_generation session generation_id db) = RenderIndex e i o ->
       exists u g,
         load_user session db = Some u
         /\ g ∈ generations db
         /\ Generation.id g = generation_id
         /\ Generation.user_id g = User.id u
         /\ i = Some (Generation.input_image_path g)
         /\ o = Some (Generation.output_image_path g).
Proof.
  unfold view_generation.
  destruct (load_user session db) as [u|]; simpl; [|done].
  destruct (first (owned generation_id (User.id u)) (generations db)) as [g|] eqn:Hg;
    simpl; [|done].
  split; [done|]. intros e i o [= _ <- <-].
  apply find_some in Hg as [Hin Hown]. apply list_elem_of_In in Hin.
  unfold owned in Hown. apply andb_true_iff in Hown as [?%Z.eqb_eq ?%Z.eqb_eq].
  by exists u, g.
Qed.

Lemma first_snoc_fresh {A} (p : A -> bool) rows x :
  Forall (fun r => p r = false) rows ->
  first p (rows ++ [x]) = if p x then Some x else None.
Proof.
  induction 1 as [|r rest Hr _ IH]; simpl; [done|]. by rewrite Hr.
Qed.

Lemma owned_fresh uid gens :
  Forall (fun g => owned (next_id (Generation.id <$> gens)) uid g = false) gens.
Proof.
  apply Forall_forall. intros g Hg. unfold owned.
  assert (Generation.id g ∈ Generation.id <$> gens) as Hin by (by apply list_elem_of_fmap_2).
  apply next_id_above in Hin. apply andb_false_iff. left. apply Z.eqb_neq. lia.
Qed.

(** X6: a generation that succeeded can be looked at by its owner and by
    nobody else: the new record gets an id that no record had,
    [view_generation] shows the owner the two pictures that [transform] just
    rendered, and answers any other session with a redirect. *)
Theorem new_generation_visible_to_owner_only req db uid u :
  can_succeed secure_filename image_size uid req = true ->
  first (has_id uid) (users db) = Some u ->
  CREDITS_PER_IMAGE <= User.credits_remaining u ->
  let db1 := db_after (transform req db) in
  let gid := next_id (Generation.id <$> generations db) in
  (gid ∉ Generation.id <$> generations db)
  /\ (exists i o,
        response (transform req db) = RenderIndex None (Some i) (Some o)
        /\ generations db1 = generations db ++ [Generation.mk gid uid i o]
        /\ response (view_generation (Some uid) gid db1) = RenderIndex None (Some i) (Some o))
  /\ forall other,
       other <> Some uid ->
       response (view_generation other gid db1) = Redirect "login"
       \/ response (view_generation other gid db1) = Redirect "index".
Proof.
  intros Hok Hu Hpay db1 gid.
  destruct (transform_success secure_filename splitext_base image_size req db uid u Hok Hu Hpay)
    as (i & o & Hr & Hdb).
  pose proof (first_Some_true _ _ _ Hu) as Hid. apply Z.eqb_eq in Hid.
  assert (generations db1 = generations db ++ [Generation.mk gid uid i o]) as Hgen.
  { unfold db1. rewrite Hdb. simpl. by rewrite Hid. }
  split_and!.
  - apply next_id_fresh.
  - exists i, o. split_and!; [done|done|].
    unfold view_generation, load_user. simpl. fold db1.
    assert (first (has_id uid) (users db1) = Some (debit u)) as ->.
    { unfold db1. rewrite Hdb. by apply record_and_debit_user. }
    rewrite Hgen, first_snoc_fresh by apply owned_fresh.
    unfold owned. simpl. by rewrite Hid, !Z.eqb_refl.
  - intros other Hother. unfold view_generation.
    destruct (load_user other db1) as [v|] eqn:Hv; [|by left]. right.
    rewrite Hgen, first_snoc_fresh by apply owned_fresh.
    unfold owned. simpl. rewrite Z.eqb_refl. simpl.
    destruct (Z.eqb_spec uid (User.id v)) as [Heq|]; [|done].
    exfalso. apply Hother. unfold load_user in Hv. destruct other as [j|]; [|done].
    simpl in Hv. apply first_Some_true in Hv. apply Z.eqb_eq in Hv. congruence.
Qed.

End Gallery.

(** ** More on the reconciliation with Stripe *)
Section Billing.

Variable cfg : Config.

Lemma update_first_Forall2 {A} (p : A -> bool) (f : A -> A) rows :
  Forall2 (fun r r1 => r1 = r \/ (first p rows = Some r /\ r1 = f r))
    rows (update_first p f rows).
Proof.
  induction rows as [|r rest IH]; simpl; [constructor|].
  destruct (p r) eqn:E.
  - constructor; [by right|]. apply Forall2_same_length_lookup_2; [done|].
    intros i x y Hx Hy. left. congruence.
  - constructor; [by left|]. exact IH.
Qed.

(** X7: the webhook touches one account at most, the first one bound to the
    customer of the event: it leaves the generations, the tokens and every
    customer id alone, every other account row as it was, and when the event
    names no customer, or a customer bound to no account, the whole
    database. *)
Theorem stripe_webhook_frame req db :
  let db1 := db_after (stripe_webhook cfg req db) in
  generations db1 = generations db
  /\ tokens db1 = tokens db
  /\ User.stripe_customer_id <$> users db1 = User.stripe_customer_id <$> users db
  /\ match wh_event req with
     | None => db1 = db
     | Some ev =>
         let c := default EmptyString (ev_customer ev) in
         (exists f, users db1 = update_first (has_customer c) f (users db))
         /\ (truthy (ev_customer ev) = false \/ first (has_customer c) (users db) = None ->
             db1 = db)
     end.
Proof.
  intros db1. split_and!.
  - unfold db1, stripe_webhook, checkout_completed, checkout_completed_try,
      subscription_changed.
    repeat (case_match || simplify_option_eq); done.
  - unfold db1, stripe_webhook, checkout_completed, checkout_completed_try,
      subscription_changed.
    repeat (case_match || simplify_option_eq); done.
  - apply stripe_webhook_keeps_customers.
  - unfold db1, stripe_webhook. destruct (wh_event req) as [ev|]; [|done].
    set (c := default EmptyString (ev_customer ev)).
    assert (forall d, d = db \/ (exists f, d = set_users (update_first (has_customer c) f (users db)) db
                                 /\ truthy (ev_customer ev) = true
                                 /\ is_Some (first (has_customer c) (users db))) ->
            (exists f, users d = update_first (has_customer c) f (users db))
            /\ (truthy (ev_customer ev) = false \/ first (has_customer c) (users db) = None ->
                d = db)) as Hshape.
    { intros d [->|(f & -> & Ht & [u Hu])].
      - split; [|done]. exists (fun r => r). symmetry. by apply update_first_id.
      - split; [by exists f|]. intros [?|?]; congruence. }
    apply Hshape.
    destruct (String.eqb (ev_type ev) "checkout.session.completed") eqn:Htype.
    + apply String.eqb_eq in Htype. rewrite Htype. simpl.
      unfold checkout_completed, checkout_completed_try. fold c.
      destruct (truthy (ev_customer ev)) eqn:Ht; [|by left].
      repeat (case_match || simplify_option_eq); simpl; eauto 7.
    + simpl. destruct (_ || _); [|by left].
      unfold subscription_changed. fold c.
      destruct (truthy (ev_customer ev)) eqn:Ht; [|by left].
      repeat (case_match || simplify_option_eq); simpl; eauto 7.
Qed.

(** X8: a subscription event for a bound customer decides the entitlement
    by its status alone: with status [active] or [trialing] the account is
    subscribed on the tier of the event's price with that tier's credits as
    balance and cap; with any other status, or none, it is back on the free
    tier with 10000 credits, unsubscribed, whatever it had left.  The
    webhook answers 200; the id, the email, the customer id and the
    generation count of the account are not touched. *)
Theorem subscription_event_sets_entitlement req db ev c price_id u :
  wh_event req = Some ev ->
  subscription_event ev ->
  ev_customer ev = Some c -> c <> EmptyString ->
  first_price_id (ev_items ev) = Some price_id ->
  first (has_customer c) (users db) = Some u ->
  exists u1,
    response (stripe_webhook cfg req db) = Json true 200
    /\ users (db_after (stripe_webhook cfg req db))
       = update_first (has_customer c) (fun _ => u1) (users db)
    /\ (User.id u1, User.email u1, User.stripe_customer_id u1, User.generation_count u1)
       = (User.id u, User.email u, User.stripe_customer_id u, User.generation_count u)
    /\ (is_active (ev_status ev) = true ->
        exists credits,
          PLAN_CREDITS !! tier_of_price cfg price_id = Some credits
          /\ entitlement u1 = (true, Some (tier_of_price cfg price_id), credits, credits))
    /\ (is_active (ev_status ev) = false ->
        entitlement u1 = (false, Some "free", 10000, 10000)).
Proof.
  intros Hev Htype Hc Hne Hprice Hu.
  assert (String.eqb (ev_type ev) "checkout.session.completed" = false) as Hnot.
  { apply String.eqb_neq. destruct Htype as [-> | ->]; done. }
  assert (String.eqb (ev_type ev) "customer.subscription.updated"
          || String.eqb (ev_type ev) "customer.subscription.deleted" = true) as Hsub.
  { destruct Htype as [-> | ->]; done. }
  assert (truthy (ev_customer ev) = true) as Ht.
  { rewrite Hc. simpl. apply negb_true_iff. by apply String.eqb_neq. }
  unfold stripe_webhook. rewrite Hev, Hnot, Hsub.
  unfold subscription_changed. rewrite Ht, Hprice, Hc. simpl. rewrite Hu.
  destruct (tier_of_price_credits cfg price_id) as [credits Hcredits].
  destruct (is_active (ev_status ev)).
  - rewrite Hcredits. simpl.
    exists (grant true (tier_of_price cfg price_id) credits u). split_and!; try done.
    + apply update_first_ext. intros r. rewrite Hu. by intros [= <-].
    + intros _. by exists credits.
  - simpl. exists (grant false "free" 10000 u). split_and!; try done.
    apply update_first_ext. intros r. rewrite Hu. by intros [= <-].
Qed.

(** X9: the two reports of one checkout agree: for a session whose customer
    is bound to an account, the confirmation on return from Stripe and the
    [checkout.session.completed] webhook that retrieves the same session
    leave the same database, in either order and however often. *)
Theorem confirmation_agrees_with_webhook pc wh ev sess sid c u db :
  truthy (pc_session_id pc) = true ->
  pc_retrieve pc = Some sess ->
  wh_event wh = Some ev ->
  ev_type ev = "checkout.session.completed" ->
  ev_id ev = Some sid ->
  wh_retrieve wh = Some sess ->
  ev_customer ev = Some c -> cs_customer sess = Some c -> c <> EmptyString ->
  first (has_customer c) (users db) = Some u ->
  db_after (post_checkout cfg pc db) = db_after (stripe_webhook cfg wh db)
  /\ db_after (post_checkout cfg pc (db_after (stripe_webhook cfg wh db)))
     = db_after (stripe_webhook cfg wh db)
  /\ db_after (stripe_webhook cfg wh (db_after (post_checkout cfg pc db)))
     = db_after (post_checkout cfg pc db).
Proof.
  intros Hsid Hpc Hev Htype Hid Hwh Hc Hcs Hne Hu.
  assert (truthy (Some c) = true) as Ht.
  { simpl. apply negb_true_iff. by apply String.eqb_neq. }
  assert (negb (String.eqb c EmptyString) = true) as Hne' by exact Ht.
  assert (forall d, is_Some (first (has_customer c) (users d)) ->
            db_after (post_checkout cfg pc d) = db_after (stripe_webhook cfg wh d)) as Hsame.
  { intros d [v Hv]. unfold post_checkout, stripe_webhook. rewrite Hsid, Hev, Htype. simpl.
    unfold checkout_completed, checkout_completed_try, post_checkout_try.
    rewrite Hpc, Hwh, Hid, Hc. simpl. rewrite Hcs. simpl. rewrite Hne'. simpl.
    destruct (first_price_id (cs_line_items sess)) as [price_id|]; simpl; [|done].
    rewrite Hv. destruct (PLAN_CREDITS !! _); done. }
  assert (is_Some (first (has_customer c) (users (db_after (stripe_webhook cfg wh db)))))
    as Hbound.
  { unfold stripe_webhook, checkout_completed, checkout_completed_try.
    rewrite Hev, Htype, Hc, Ht, Hid, Hwh. simpl.
    destruct (first_price_id (cs_line_items sess)) as [price_id|]; simpl; [|by eexists].
    rewrite Hu. destruct (PLAN_CREDITS !! _); simpl; [|by eexists].
    rewrite first_customer_grant, Hu. by eexists. }
  split_and!.
  - apply Hsame. by eexists.
  - rewrite Hsame by done. apply stripe_webhook_idem.
  - rewrite Hsame by (by eexists). apply stripe_webhook_idem.
Qed.

Lemma price_ids_distinct :
  NoDup (price_ids cfg) ->
  STRIPE_PRICE_ID_STARTER cfg <> STRIPE_PRICE_ID_CREATOR cfg
  /\ STRIPE_PRICE_ID_STARTER cfg <> STRIPE_PRICE_ID_ENTERPRISE cfg
  /\ STRIPE_PRICE_ID_STARTER cfg <> STRIPE_PRICE_ID_STARTER_ANNUAL cfg
  /\ STRIPE_PRICE_ID_STARTER cfg <> STRIPE_PRICE_ID_CREATOR_ANNUAL cfg
  /\ STRIPE_PRICE_ID_STARTER cfg <> STRIPE_PRICE_ID_ENTERPRISE_ANNUAL cfg
  /\ STRIPE_PRICE_ID_CREATOR cfg <> STRIPE_PRICE_ID_ENTERPRISE cfg
  /\ STRIPE_PRICE_ID_CREATOR cfg <> STRIPE_PRICE_ID_STARTER_ANNUAL cfg
  /\ STRIPE_PRICE_ID_CREATOR cfg <> STRIPE_PRICE_ID_CREATOR_ANNUAL cfg
  /\ STRIPE_PRICE_ID_CREATOR cfg <> STRIPE_PRICE_ID_ENTERPRISE_ANNUAL cfg
  /\ STRIPE_PRICE_ID_ENTERPRISE cfg <> STRIPE_PRICE_ID_STARTER_ANNUAL cfg
  /\ STRIPE_PRICE_ID_ENTERPRISE cfg <> STRIPE_PRICE_ID_CREATOR_ANNUAL cfg
  /\ STRIPE_PRICE_ID_ENTERPRISE cfg <> STRIPE_PRICE_ID_ENTERPRISE_ANNUAL cfg
  /\ STRIPE_PRICE_ID_STARTER_ANNUAL cfg <> STRIPE_PRICE_ID_CREATOR_ANNUAL cfg
  /\ STRIPE_PRICE_ID_STARTER_ANNUAL cfg <> STRIPE_PRICE_ID_ENTERPRISE_ANNUAL cfg
  /\ STRIPE_PRICE_ID_CREATOR_ANNUAL cfg <> STRIPE_PRICE_ID_ENTERPRISE_ANNUAL cfg.
Proof.
  unfold price_ids. intros H.
  repeat match goal with
         | H : NoDup (_ :: _) |- _ => apply NoDup_cons in H as [? H]
         | H : _ ∉ _ :: _ |- _ => apply not_elem_of_cons in H as [? H]
         end.
  split_and!; done.
Qed.

(** X10: the plan a user picks on [upgrade] comes back from the price that
    Stripe reports: when the six configured price ids are pairwise distinct,
    [upgrade] has a price for each of the three paid plans, monthly or
    annual, and the reconciler maps that price back to the same plan; any
    other plan has no price; and a price id that is none of the six
    resolves to [creator]. *)
Theorem plan_price_round_trip plan billing :
  NoDup (price_ids cfg) ->
  (paid_plan plan ->
   exists p, price_id_map cfg plan billing = Some p /\ tier_of_price cfg (Some p) = plan)
  /\ (~ paid_plan plan -> price_id_map cfg plan billing = None)
  /\ (forall p, p ∉ price_ids cfg -> tier_of_price cfg (Some p) = "creator").
Proof.
  intros Hdistinct.
  destruct (price_ids_distinct Hdistinct)
    as (? & ? & ? & ? & ? & ? & ? & ? & ? & ? & ? & ? & ? & ? & ?).
  split_and!.
  - intros [-> | [-> | ->]]; unfold price_id_map; simpl;
      destruct (String.eqb billing "monthly"); eexists; (split; [reflexivity|]);
      unfold tier_of_price, PRICE_ID_TO_TIER; simpl;
      repeat (rewrite lookup_insert_eq || rewrite lookup_insert_ne by congruence); done.
  - intros Hnot. unfold price_id_map.
    destruct (String.eqb_spec plan "starter"); [exfalso; apply Hnot; by left|].
    destruct (String.eqb_spec plan "creator"); [exfalso; apply Hnot; right; by left|].
    destruct (String.eqb_spec plan "enterprise"); [exfalso; apply Hnot; right; by right|].
    done.
  - intros p Hp. unfold price_ids in Hp.
    repeat (apply not_elem_of_cons in Hp as [? Hp]).
    unfold tier_of_price, PRICE_ID_TO_TIER. simpl.
    repeat (rewrite lookup_insert_ne by congruence). by rewrite lookup_empty.
Qed.

(** X11: [ensure_stripe_customer] creates one customer per account at most:
    once it has returned a (non-empty) id for an account of the database,
    the account holds that id with its entitlement unchanged, and every
    further call on it returns the same id without calling Stripe and
    without a write. *)
Theorem ensure_stripe_customer_once created again u db c :
  first (has_id (User.id u)) (users db) = Some u ->
  (ensure_stripe_customer created u db).1.1 = Some c ->
  c <> EmptyString ->
  exists u1,
    first (has_id (User.id u)) (users (ensure_stripe_customer created u db).1.2) = Some u1
    /\ User.stripe_customer_id u1 = Some c
    /\ entitlement u1 = entitlement u
    /\ ensure_stripe_customer again u1 (ensure_stripe_customer created u db).1.2
       = (Some c, (ensure_stripe_customer created u db).1.2, []).
Proof.
  intros Hu Hc Hne.
  assert (negb (String.eqb c EmptyString) = true) as Htrue.
  { apply negb_true_iff. by apply String.eqb_neq. }
  unfold ensure_stripe_customer in *.
  destruct (truthy (User.stripe_customer_id u)) eqn:Ht; simpl in *.
  - exists u. split_and!; [done|done|done|]. by rewrite Ht, Hc.
  - destruct created as [c0|]; simpl in *; [|done]. injection Hc as ->.
    exists (bind_customer c u). split_and!; try done.
    + rewrite first_update_first; [by rewrite Hu|]. by intros [].
    + simpl. by rewrite Htrue.
Qed.

(** X12: [upgrade] and [billing_portal] grant nothing: they leave the
    subscription flag, the plan, the balance and the cap of every account,
    the generations and the tokens as they were; the only write they can
    make is the customer id of an account that had none. *)
Theorem upgrade_never_grants req db :
  let rows_kept db1 :=
    entitlement <$> users db1 = entitlement <$> users db
    /\ generations db1 = generations db
    /\ tokens db1 = tokens db
    /\ Forall2 (fun v v1 =>
                  v1 = v
                  \/ (truthy (User.stripe_customer_id v) = false
                      /\ exists c, ug_customer req = Some c /\ v1 = bind_customer c v))
         (users db) (users db1) in
  rows_kept (db_after (upgrade cfg req db))
  /\ rows_kept (db_after (billing_portal req db)).
Proof.
  intros rows_kept.
  assert (rows_kept db) as Hsame.
  { unfold rows_kept. split_and!; try done.
    apply Forall2_same_length_lookup_2; [done|]. intros i x y Hx Hy. left. congruence. }
  assert (forall u, load_user (ug_session req) db = Some u ->
            rows_kept (db_after (start_session req u db))) as Hstart.
  { intros u Hu%load_user_first. unfold start_session, ensure_stripe_customer.
    destruct (truthy (User.stripe_customer_id u)) eqn:Ht.
    - destruct (User.stripe_customer_id u); [|done]. by destruct (ug_url req).
    - destruct (ug_customer req) as [c|] eqn:Hc; [|done].
      assert (rows_kept (set_users (update_first (has_id (User.id u)) (bind_customer c)
                                      (users db)) db)) as Hbound.
      { unfold rows_kept. simpl. split_and!; try done.
        - by rewrite fmap_update_first.
        - eapply Forall2_impl; [apply update_first_Forall2|]. simpl.
          intros v v1 [->|[Hv ->]]; [by left|]. right. rewrite Hu in Hv.
          injection Hv as <-. eauto. }
      by destruct (ug_url req). }
  split.
  - unfold upgrade. destruct (load_user (ug_session req) db) as [u|] eqn:Hu; [|done].
    destruct (User.is_subscribed u); [done|]. destruct (_ && _); [|done]. by apply Hstart.
  - unfold billing_portal. destruct (load_user (ug_session req) db) as [u|] eqn:Hu; [|done].
    by apply Hstart.
Qed.

(** X13: [post_checkout] never fails: whatever Stripe answers, it redirects
    to the index page, and unless it redirects with [upgraded=1] it has
    changed nothing; it never touches a generation or a token.  Without a
    session id, after a failed retrieve or for a session without customer
    it is the plain redirect. *)
Theorem post_checkout_always_redirects req db :
  (response (post_checkout cfg req db) = Redirect "index?upgraded=1"
   \/ (response (post_checkout cfg req db) = Redirect "index"
       /\ db_after (post_checkout cfg req db) = db))
  /\ generations (db_after (post_checkout cfg req db)) = generations db
  /\ tokens (db_after (post_checkout cfg req db)) = tokens db
  /\ (truthy (pc_session_id req) = false \/ pc_retrieve req = None
      \/ (exists sess, pc_retrieve req = Some sess /\ truthy (cs_customer sess) = false) ->
      response (post_checkout cfg req db) = Redirect "index"
      /\ db_after (post_checkout cfg req db) = db).
Proof.
  split_and!.
  - unfold post_checkout. destruct (truthy _); [|by right].
    destruct (post_checkout_try cfg req db); [by left|by right].
  - unfold post_checkout, post_checkout_try.
    repeat (case_match || simplify_option_eq); done.
  - unfold post_checkout, post_checkout_try.
    repeat (case_match || simplify_option_eq); done.
  - unfold post_checkout. intros [->|[Hr|(sess & Hr & Hc)]]; [done| |];
      destruct (truthy (pc_session_id req)); try done;
      unfold post_checkout_try; rewrite Hr; simpl; [done|]. by rewrite Hc.
Qed.

(** X14: the webhook answers 400 exactly when the signature check fails,
    and then it has done nothing: no write, no call, no message.  It
    answers with a server error only for a subscription event whose first
    item has no price id, and has written nothing then either. *)
Theorem stripe_webhook_rejects_unverified req db :
  (response (stripe_webhook cfg req db) = Json false 400 <-> wh_event req = None)
  /\ (wh_event req = None ->
      db_after (stripe_webhook cfg req db) = db /\ effects (stripe_webhook cfg req db) = [])
  /\ (response (stripe_webhook cfg req db) = ServerError ->
      db_after (stripe_webhook cfg req db) = db
      /\ exists ev, wh_event req = Some ev /\ subscription_event ev
                    /\ first_price_id (ev_items ev) = None).
Proof.
  unfold stripe_webhook. destruct (wh_event req) as [ev|]; [|done].
  destruct (String.eqb (ev_type ev) "checkout.session.completed") eqn:Htype.
  - apply String.eqb_eq in Htype. rewrite Htype. simpl.
    destruct (checkout_completed cfg ev (wh_retrieve req) db) as [db1 eff]. simpl.
    split_and!; [by split|done|done].
  - simpl. destruct (_ || _) eqn:Hsub; [|by split_and!].
    unfold subscription_changed.
    destruct (truthy (ev_customer ev)); [|by split_and!].
    destruct (first_price_id (ev_items ev)) as [price_id|] eqn:Hprice; simpl.
    + destruct (first _ _); [|by split_and!].
      destruct (PLAN_CREDITS !! _) eqn:Hc; simpl; [by split_and!|].
      exfalso. destruct (is_active (ev_status ev)); [|done].
      destruct (tier_of_price_credits cfg price_id) as [? Hsome]. congruence.
    + split_and!; [by split|done|]. intros _. split; [done|]. exists ev. split_and!; [done| |done].
      apply orb_true_iff in Hsub as [?%String.eqb_eq|?%String.eqb_eq]; [by left|by right].
Qed.

(** X15: the confirmation binds an account that has no customer yet: when
    the customer of the session is bound to no account and the signed-in
    account has no customer id, that account gets the customer id of the
    session and the entitlement of the price's tier, and a later webhook
    for that customer finds it. *)
Theorem post_checkout_binds_account req db sess c price_id u :
  truthy (pc_session_id req) = true ->
  pc_retrieve req = Some sess ->
  cs_customer sess = Some c -> c <> EmptyString ->
  first_price_id (cs_line_items sess) = Some price_id ->
  first (has_customer c) (users db) = None ->
  load_user (pc_session req) db = Some u ->
  User.stripe_customer_id u = None ->
  exists credits u1,
    PLAN_CREDITS !! tier_of_price cfg price_id = Some credits
    /\ response (post_checkout cfg req db) = Redirect "index?upgraded=1"
    /\ first (has_id (User.id u)) (users (db_after (post_checkout cfg req db))) = Some u1
    /\ first (has_customer c) (users (db_after (post_checkout cfg req db))) = Some u1
    /\ User.stripe_customer_id u1 = Some c
    /\ entitlement u1 = (true, Some (tier_of_price cfg price_id), credits, credits).
Proof.
  intros Hsid Hr Hc Hne Hprice Hnone Hu Hnull.
  assert (negb (String.eqb c EmptyString) = true) as Htrue.
  { apply negb_true_iff. by apply String.eqb_neq. }
  destruct (tier_of_price_credits cfg price_id) as [credits Hcredits].
  exists credits, (grant true (tier_of_price cfg price_id) credits (bind_customer c u)).
  unfold post_checkout, post_checkout_try. rewrite Hsid, Hr. simpl. rewrite Hc. simpl.
  rewrite Htrue, Hprice. simpl. rewrite Hnone, Hu, Hcredits. simpl.
  apply load_user_first in Hu.
  split_and!; try done.
  - rewrite first_update_first; [by rewrite Hu|]. by intros [].
  - erewrite first_update_first_new; [done|done|exact Hu|].
    rewrite has_customer_grant. apply has_customer_bind.
Qed.

End Billing.

(** ** More on the upload hand-off *)
Section Rendezvous.

Variable cfg : Config.
Variable secure_filename : string -> string.
Variable splitext_base : string -> string.
Variable image_size : string -> option (Z * Z).

Local Abbreviation upload_post := (mobile_upload_post secure_filename).
Local Abbreviation run := (run cfg secure_filename splitext_base image_size).

(** X16: the hand-off as the first device sees it: a token that is not in
    the table is [NotFound]; once [mobile_start] has issued it, it is
    [Pending]; once the second device has posted a named file, it is [Ready]
    with the path of that file, and it stays [Ready] with the same path
    after any further requests of any kind. *)
Theorem handoff_lifecycle session fresh f db :
  first (has_token fresh) (tokens db) = None ->
  up_filename f <> EmptyString ->
  let db1 := db_after (mobile_start session fresh db) in
  let db2 := db_after (upload_post (mkMobileUpload fresh (Some f)) db1) in
  mobile_status fresh db = NotFound
  /\ mobile_status fresh db1 = Pending
  /\ exists path,
       effects (upload_post (mkMobileUpload fresh (Some f)) db1) = [SaveFile path]
       /\ mobile_status fresh db2 = Ready ("/" +:+ path)
       /\ forall rs, mobile_status fresh (run rs db2) = Ready ("/" +:+ path).
Proof.
  intros Hnew Hname db1 db2.
  assert (file_given (Some f) = Some f) as Hf.
  { simpl. unfold is_empty. by destruct (String.eqb_spec (up_filename f) EmptyString). }
  set (t := new_token db fresh (User.id <$> load_user session db)).
  assert (first (has_token fresh) (tokens db1) = Some t) as H1.
  { unfold db1, mobile_start. rewrite Hnew. simpl.
    rewrite first_snoc_fresh.
    - unfold has_token. simpl. by rewrite String.eqb_refl.
    - clear -Hnew. induction (tokens db) as [|r rest IH]; [constructor|].
      simpl in Hnew. destruct (has_token fresh r) eqn:E; [done|]. constructor; auto. }
  split_and!.
  - unfold mobile_status. by rewrite Hnew.
  - unfold mobile_status. by rewrite H1.
  - set (path := path_join UPLOAD_FOLDER
                   ("mobile_" +:+ fresh +:+ "_" +:+
                    (if is_empty (secure_filename (up_filename f))
                     then fresh +:+ ".jpg" else secure_filename (up_filename f)))).
    assert (upload_post (mkMobileUpload fresh (Some f)) db1
            = mkOutcome (RenderMobileUpload true)
                (set_tokens (update_first (has_token fresh) (deposit path) (tokens db1)) db1)
                [SaveFile path]) as Hout.
    { unfold mobile_upload_post. cbn [mu_token mu_file]. rewrite H1. cbn [MobileUploadToken.used t new_token].
      by rewrite Hf. }
    assert (first (has_token fresh) (tokens db2) = Some (deposit path t)) as H2.
    { unfold db2. rewrite Hout. cbn [db_after set_tokens tokens].
      rewrite first_update_first; [by rewrite H1|]. by intros []. }
    exists path. split_and!.
    + by rewrite Hout.
    + unfold mobile_status. by rewrite H2.
    + intros rs. unfold mobile_status.
      by rewrite (used_token_stable_run cfg secure_filename splitext_base image_size
                    rs db2 fresh (deposit path t) H2 eq_refl).
Qed.

(** X17: the upload form and the upload agree: [mobile_upload_get] answers
    410 exactly when a deposit on that token would be answered 410, that
    is when the token is unknown or used; when it shows the form, the
    deposit of any named file is accepted. *)
Theorem upload_form_agrees_with_deposit req db :
  (mobile_upload_get (mu_token req) db = expired
   <-> response (upload_post req db) = expired)
  /\ (mobile_upload_get (mu_token req) db = expired
      <-> first (has_token (mu_token req)) (tokens db) = None
          \/ exists t, first (has_token (mu_token req)) (tokens db) = Some t
                       /\ MobileUploadToken.used t = true)
  /\ (mobile_upload_get (mu_token req) db = RenderMobileUpload false ->
      forall f, file_given (mu_file req) = Some f ->
        response (upload_post req db) = RenderMobileUpload true).
Proof.
  unfold mobile_upload_get, mobile_upload_post.
  destruct (first (has_token (mu_token req)) (tokens db)) as [t|].
  - destruct (MobileUploadToken.used t) eqn:Hu.
    + split_and!; [done| |done]. split; [|done]. intros _. right. by exists t.
    + split_and!.
      * split; [done|]. by destruct (file_given (mu_file req)).
      * split; [done|]. intros [?|(t' & [= <-] & ?)]; congruence.
      * intros _ f ->. done.
  - split_and!; [done| |done]. split; [|done]. intros _. by left.
Qed.

End Rendezvous.

(** ** The start-up code *)
Section Startup.

Lemma column_exists_app cols more name :
  _column_exists (cols ++ more) name = _column_exists cols name || _column_exists more name.
Proof. unfold _column_exists. apply existsb_app. Qed.

(** The blocks only add columns, and a column that exists keeps existing. *)
Lemma add_if_missing_fold cs : forall st,
  let r := foldl add_if_missing st cs in
  st.1 `prefix_of` r.1
  /\ (forall name, _column_exists st.1 name = true -> _column_exists r.1 name = true)
  /\ (forall c, c ∈ cs -> _column_exists r.1 (col_name c) = true)
  /\ (forall col, col ∈ r.1 -> col ∈ st.1 \/ col ∈ cs)
  /\ ((r.1 = st.1 /\ r.2 = st.2) \/ (length st.1 < length r.1 /\ r.2 = true))%nat.
Proof.
  induction cs as [|c cs IH]; intros st r.
  - subst r. simpl. split_and!; try done; [by intros ? ?%elem_of_nil|auto|auto].
  - subst r. simpl. specialize (IH (add_if_missing st c)). simpl in IH.
    destruct IH as (Hpre & Hmono & Hall & Hfrom & Hflag).
    assert (st.1 `prefix_of` (add_if_missing st c).1) as Hstep.
    { unfold add_if_missing. destruct (_column_exists st.1 (col_name c)); [done|].
      simpl. by apply prefix_app_r. }
    assert (forall name, _column_exists st.1 name = true ->
              _column_exists (add_if_missing st c).1 name = true) as Hkeep.
    { intros name H. unfold add_if_missing.
      destruct (_column_exists st.1 (col_name c)); [done|].
      simpl. rewrite column_exists_app, H. done. }
    assert (_column_exists (add_if_missing st c).1 (col_name c) = true) as Hc.
    { unfold add_if_missing. destruct (_column_exists st.1 (col_name c)) eqn:E; [done|].
      simpl. rewrite column_exists_app. unfold _column_exists at 2. simpl.
      rewrite String.eqb_refl. by rewrite orb_true_r. }
    split_and!.
    + by etrans.
    + auto.
    + intros c' [->|Hin]%elem_of_cons; auto.
    + intros col Hcol. destruct (Hfrom col Hcol) as [Hin|Hin].
      * unfold add_if_missing in Hin. destruct (_column_exists st.1 (col_name c)); [by left|].
        simpl in Hin. apply elem_of_app in Hin as [? | ->%list_elem_of_singleton]; [by left|].
        right. by left.
      * right. by right.
    + apply prefix_length in Hstep.
      destruct Hflag as [[-> ->]|[Hlen ->]]; [|right; split; [lia|done]].
      unfold add_if_missing. destruct (_column_exists st.1 (col_name c)); [by left|].
      right. simpl. rewrite length_app. simpl. split; [lia|done].
Qed.

Lemma add_if_missing_present cs : forall st,
  (forall c, c ∈ cs -> _column_exists st.1 (col_name c) = true) ->
  foldl add_if_missing st cs = st.
Proof.
  induction cs as [|c cs IH]; intros st H; [done|]. simpl.
  assert (add_if_missing st c = st) as ->.
  { unfold add_if_missing. rewrite H; [done|by left]. }
  apply IH. intros c' Hc'. apply H. by right.
Qed.

(** X18: the auto-migration is additive, complete and idempotent: it keeps
    every column of the table in place and adds columns at the end only,
    each of them one of the six paywall columns; afterwards all six exist;
    it commits exactly when it added a column; and a second run finds
    nothing to add and does not commit. *)
Theorem ensure_paywall_columns_complete table_info :
  let r := ensure_paywall_columns table_info in
  table_info `prefix_of` r.1
  /\ (forall col, col ∈ r.1 -> col ∈ table_info \/ col ∈ paywall_columns)
  /\ (forall c, c ∈ paywall_columns -> _column_exists r.1 (col_name c) = true)
  /\ (r.2 = false <-> r.1 = table_info)
  /\ ensure_paywall_columns r.1 = (r.1, false).
Proof.
  intros r. subst r. unfold ensure_paywall_columns.
  destruct (add_if_missing_fold paywall_columns (table_info, false))
    as (Hpre & _ & Hall & Hfrom & Hflag).
  simpl in *. split_and!; try done.
  - destruct Hflag as [[Heq Hb]|[Hlen Hb]].
    + by split.
    + split; [congruence|]. intros Heq. rewrite Heq in Hlen. lia.
  - by apply (add_if_missing_present paywall_columns (_, false)).
Qed.

Lemma grandfather_idem u : grandfather (grandfather u) = grandfather u.
Proof.
  unfold grandfather.
  destruct (User.is_subscribed u && no_tier u && (User.credits_limit u =? 200000)) eqn:E;
    [|by rewrite E].
  apply andb_true_iff in E as [[Hs _]%andb_true_iff _]. simpl. rewrite Hs. done.
Qed.

(** X19: the start-up pass over legacy subscribers changes nothing but the
    plan of an account, and only of a subscribed account without plan whose
    cap is 200000, which it puts on [legacy_pro], the tier whose catalog
    value is that cap; afterwards no such account is left, and a second pass
    changes nothing. *)
Theorem grandfather_legacy_users_only db :
  let db1 := grandfather_legacy_users db in
  generations db1 = generations db
  /\ tokens db1 = tokens db
  /\ Forall2 (fun u u1 =>
                u1 = u
                \/ (User.is_subscribed u = true /\ no_tier u = true
                    /\ u1 = set_plan_tier "legacy_pro" u
                    /\ PLAN_CREDITS !! "legacy_pro" = Some (User.credits_limit u1)))
       (users db) (users db1)
  /\ Forall (fun u1 => User.is_subscribed u1 = true -> User.credits_limit u1 = 200000 ->
                       no_tier u1 = false) (users db1)
  /\ grandfather_legacy_users db1 = db1.
Proof.
  intros db1. subst db1. unfold grandfather_legacy_users. simpl. split_and!; try done.
  - apply Forall2_fmap_r, Forall_Forall2_diag, Forall_forall. intros u _.
    unfold compose, grandfather.
    destruct (User.is_subscribed u && no_tier u && (User.credits_limit u =? 200000)) eqn:E;
      [|by left].
    apply andb_true_iff in E as [[Hs Hn]%andb_true_iff Hl%Z.eqb_eq].
    right. split_and!; try done. simpl. by rewrite Hl.
  - apply Forall_fmap, Forall_forall. intros u _. simpl. unfold grandfather.
    destruct (User.is_subscribed u && no_tier u && (User.credits_limit u =? 200000)) eqn:E.
    + done.
    + intros Hs Hl. rewrite Hs, Hl in E. simpl in E. by rewrite andb_true_r in E.
  - unfold set_users. simpl. f_equal.
    rewrite <- list_fmap_compose. apply list_fmap_ext. intros i u _.
    apply grandfather_idem.
Qed.

End Startup.

(** ** More on the resize step *)

(** X20: a picture whose longest edge is already 1024 passes the resize
    step unchanged, and so the step is idempotent: resizing its own output
    gives that output (for positive sizes below [2^40]). *)
Theorem resize_dims_idempotent w h :
  0 < w < 2 ^ 40 -> 0 < h < 2 ^ 40 ->
  (Z.max w h = 1024 -> resize_dims w h = (w, h))
  /\ resize_dims (resize_dims w h).1 (resize_dims w h).2 = resize_dims w h.
Proof.
  assert (forall a b, 0 < a < 2 ^ 40 -> 0 < b < 2 ^ 40 -> Z.max a b = 1024 ->
            resize_dims a b = (a, b)) as Hfix.
  { intros a b Ha Hb Hmax.
    destruct (resize_dims_edges a b Ha Hb) as (ra & rb & -> & Hra & Hrb).
    rewrite Hmax in Hra, Hrb. f_equal; lia. }
  intros Hw Hh. split; [by apply Hfix|].
  destruct (resize_dims_edges w h Hw Hh) as (rw & rh & -> & Hrw & Hrh).
  cbn [fst snd].
  assert (w <= Z.max w h /\ h <= Z.max w h /\ (Z.max w h = w \/ Z.max w h = h))
    as (Hwl & Hhl & Hmax) by lia.
  set (L := Z.max w h) in *. clearbody L.
  assert (rw <= 1024) by nia. assert (rh <= 1024) by nia.
  apply Hfix; [lia|lia|].
  destruct Hmax as [-> | ->].
  - assert (rw = 1024) by nia. lia.
  - assert (rh = 1024) by nia. lia.
Qed.

(** ** What [transform] does outside the database *)
Section Calls.

Variable secure_filename : string -> string.
Variable splitext_base : string -> string.
Variable image_size : string -> option (Z * Z).

Local Abbreviation transform := (transform secure_filename splitext_base image_size).

(** X21: [transform] calls the collaborator once at most, and only for a
    signed-in account that can pay, with a named file that was saved and
    decodes, and with the size the resize step computes from the size of
    that picture; what follows the call is one effect only: the flash of the
    error when the generation failed, the save of the output when it
    succeeded. *)
Theorem transform_calls_collaborator_once req db w h :
  GenerateContent w h ∈ effects (transform req db) ->
  exists u f w0 h0 input rest,
    load_user (tr_session req) db = Some u
    /\ CREDITS_PER_IMAGE <= User.credits_remaining u
    /\ file_given (tr_file req) = Some f
    /\ is_empty (secure_filename (up_filename f)) = false
    /\ image_size (up_content f) = Some (w0, h0)
    /\ (w, h) = resize_dims w0 h0
    /\ effects (transform req db) = [SaveFile input; GenerateContent w h] ++ rest
    /\ ((exists e, rest = [FlashError e] /\ db_after (transform req db) = db)
        \/ exists output, rest = [SaveFile output]).
Proof.
  unfold transform.
  destruct (load_user (tr_session req) db) as [u|]; [|by intros ?%elem_of_nil].
  destruct (Z.ltb_spec (User.credits_remaining u) CREDITS_PER_IMAGE) as [_|Hpay].
  { intros H%list_elem_of_singleton. done. }
  destruct (file_given (tr_file req)) as [f|]; [|by intros H%list_elem_of_singleton].
  unfold transform_try.
  destruct (is_empty (secure_filename (up_filename f))) eqn:Hname.
  { simpl. intros H%list_elem_of_singleton. done. }
  destruct (image_size (up_content f)) as [[w0 h0]|] eqn:Hsize.
  2:{ simpl. intros [H|H%list_elem_of_singleton]%elem_of_cons; done. }
  destruct (resize_dims w0 h0) as [new_w new_h] eqn:Hdims.
  intros Hin. exists u, f, w0, h0.
  assert ((w, h) = (new_w, new_h)) as Hwh.
  { repeat case_match; simpl in Hin;
      repeat (apply elem_of_cons in Hin as [Hin|Hin]; [by simplify_eq|]);
      by apply elem_of_nil in Hin. }
  injection Hwh as -> ->.
  repeat case_match; simpl; eexists _, _; split_and!; try done; eauto.
Qed.

End Calls.

(** ** The further theorems at the sample data *)

Lemma balance_within_cap_witness :
  Forall within_cap (users Sample.fresh_db)
  /\ Forall within_cap
       (users (run default_config Sample.secure_filename Sample.splitext_base
                 Sample.image_size Fixture.requests Sample.fresh_db)).
Proof.
  assert (Forall within_cap (users Sample.fresh_db)) as H.
  { simpl. repeat constructor; simpl; lia. }
  split; [exact H|].
  apply (balance_within_cap default_config Sample.secure_filename Sample.splitext_base
           Sample.image_size Fixture.requests Sample.fresh_db H).
Defined.

Lemma index_never_raises_witness :
  Forall (fun u => is_Some (User.generation_count u)) (users Sample.fresh_db)
  /\ is_Some (index (Some 1) false
                (run default_config Sample.secure_filename Sample.splitext_base
                   Sample.image_size Fixture.requests Sample.fresh_db)).1.
Proof.
  assert (Forall (fun u => is_Some (User.generation_count u)) (users Sample.fresh_db)) as H.
  { simpl. repeat constructor. by eexists. }
  split; [exact H|].
  apply (index_never_raises default_config Sample.secure_filename Sample.splitext_base
           Sample.image_size Fixture.requests Sample.fresh_db (Some 1) false H).
Defined.

Lemma keys_stay_unique_witness :
  keys_unique Sample.fresh_db
  /\ keys_unique (run default_config Sample.secure_filename Sample.splitext_base
                    Sample.image_size Fixture.requests Sample.fresh_db).
Proof.
  assert (keys_unique Sample.fresh_db) as H.
  { unfold keys_unique. simpl. split_and!; try apply NoDup_nil_2; apply NoDup_singleton. }
  split; [exact H|].
  apply (keys_stay_unique default_config Sample.secure_filename Sample.splitext_base
           Sample.image_size Fixture.requests Sample.fresh_db H).
Defined.

Lemma new_generation_visible_to_owner_only_witness :
  response (view_generation (Some 2) 1
              (db_after (transform Sample.secure_filename Sample.splitext_base
                           Sample.image_size Sample.good_request Sample.fresh_db)))
  = Redirect "login"
  \/ response (view_generation (Some 2) 1
                 (db_after (transform Sample.secure_filename Sample.splitext_base
                              Sample.image_size Sample.good_request Sample.fresh_db)))
     = Redirect "index".
Proof.
  destruct (new_generation_visible_to_owner_only Sample.secure_filename Sample.splitext_base
              Sample.image_size Sample.good_request Sample.fresh_db 1 Fixture.ann
              eq_refl eq_refl ltac:(vm_compute; discriminate)) as (_ & _ & H).
  apply (H (Some 2)). discriminate.
Defined.

Lemma subscription_event_sets_entitlement_witness :
  exists u1,
    response (stripe_webhook default_config Fixture.cancel_webhook Sample.bound_db)
    = Json true 200
    /\ users (db_after (stripe_webhook default_config Fixture.cancel_webhook Sample.bound_db))
       = update_first (has_customer "cus_A") (fun _ => u1) (users Sample.bound_db)
    /\ entitlement u1 = (false, Some "free", 10000, 10000).
Proof.
  destruct (subscription_event_sets_entitlement default_config Fixture.cancel_webhook
              Sample.bound_db Fixture.cancelled_A "cus_A" (Some "price_creator_monthly")
              Fixture.ann_bound eq_refl (or_intror eq_refl) eq_refl
              ltac:(discriminate) eq_refl eq_refl) as (u1 & H1 & H2 & _ & _ & H3).
  exists u1. split_and!; [exact H1|exact H2|exact (H3 eq_refl)].
Defined.

Lemma confirmation_agrees_with_webhook_witness :
  db_after (post_checkout default_config Fixture.confirmation_A Sample.bound_db)
  = db_after (stripe_webhook default_config Fixture.webhook_A Sample.bound_db).
Proof.
  destruct (confirmation_agrees_with_webhook default_config Fixture.confirmation_A
              Fixture.webhook_A Fixture.completed_A Fixture.session_A "cs_test_1" "cus_A"
              Fixture.ann_bound Sample.bound_db eq_refl eq_refl eq_refl eq_refl eq_refl
              eq_refl eq_refl eq_refl ltac:(discriminate) eq_refl) as (H & _ & _).
  exact H.
Defined.

Lemma plan_price_round_trip_witness :
  NoDup (price_ids default_config)
  /\ exists p, price_id_map default_config "starter" "annual" = Some p
               /\ tier_of_price default_config (Some p) = "starter".
Proof.
  assert (NoDup (price_ids default_config)) as H.
  { apply (bool_decide_unpack (NoDup (price_ids default_config))). vm_compute. exact I. }
  split; [exact H|].
  destruct (plan_price_round_trip default_config "starter" "annual" H) as (Hplan & _ & _).
  apply Hplan. by left.
Defined.

Lemma ensure_stripe_customer_once_witness :
  exists u1,
    first (has_id 1)
      (users (ensure_stripe_customer (Some "cus_new") Fixture.ann Sample.fresh_db).1.2)
    = Some u1
    /\ User.stripe_customer_id u1 = Some "cus_new".
Proof.
  destruct (ensure_stripe_customer_once (Some "cus_new") (Some "cus_other") Fixture.ann
              Sample.fresh_db "cus_new" eq_refl eq_refl ltac:(discriminate))
    as (u1 & H1 & H2 & _).
  exists u1. split; [exact H1|exact H2].
Defined.

Lemma post_checkout_binds_account_witness :
  exists credits u1,
    PLAN_CREDITS !! tier_of_price default_config (Some "price_starter_monthly") = Some credits
    /\ first (has_customer "cus_B")
         (users (db_after (post_checkout default_config Sample.foreign_checkout
                             Sample.fresh_db))) = Some u1
    /\ entitlement u1
       = (true, Some (tier_of_price default_config (Some "price_starter_monthly")),
          credits, credits).
Proof.
  destruct (post_checkout_binds_account default_config Sample.foreign_checkout
              Sample.fresh_db
              (mkSession (Some "cus_B") (Some [mkLineItem (Some "price_starter_monthly")]))
              "cus_B" (Some "price_starter_monthly") Fixture.ann eq_refl eq_refl eq_refl
              ltac:(discriminate) eq_refl eq_refl eq_refl eq_refl)
    as (credits & u1 & H1 & _ & _ & H2 & _ & H3).
  exists credits, u1. split_and!; assumption.
Defined.

Lemma handoff_lifecycle_witness :
  mobile_status "tok_1" Sample.empty_db = NotFound
  /\ mobile_status "tok_1" (db_after (mobile_start None "tok_1" Sample.empty_db)) = Pending.
Proof.
  destruct (handoff_lifecycle default_config Sample.secure_filename Sample.splitext_base
              Sample.image_size None "tok_1" Sample.photo Sample.empty_db eq_refl
              ltac:(discriminate)) as (H1 & H2 & _).
  split; [exact H1|exact H2].
Defined.

Lemma resize_dims_idempotent_witness :
  0 < 4000 < 2 ^ 40 /\ 0 < 3000 < 2 ^ 40
  /\ resize_dims (resize_dims 4000 3000).1 (resize_dims 4000 3000).2 = resize_dims 4000 3000.
Proof.
  assert (0 < 4000 < 2 ^ 40) as Hw by lia.
  assert (0 < 3000 < 2 ^ 40) as Hh by lia.
  destruct (resize_dims_idempotent 4000 3000 Hw Hh) as [_ H].
  split; [exact Hw|split; [exact Hh|exact H]].
Defined.

Lemma transform_calls_collaborator_once_witness :
  exists u f w0 h0,
    load_user (tr_session Sample.good_request) Sample.fresh_db = Some u
    /\ file_given (tr_file Sample.good_request) = Some f
    /\ Sample.image_size (up_content f) = Some (w0, h0)
    /\ (1024, 768) = resize_dims w0 h0.
Proof.
  destruct (transform_calls_collaborator_once Sample.secure_filename Sample.splitext_base
              Sample.image_size Sample.good_request Sample.fresh_db 1024 768)
    as (u & f & w0 & h0 & input & rest & H1 & _ & H2 & _ & H3 & H4 & _).
  - apply (bool_decide_unpack _). vm_compute. exact I.
  - exists u, f, w0, h0. split_and!; assumption.
Defined.
